(** * Verified model of the RAG assistants

    A shallow embedding of the two session classes of the repository,
    [DualModelRAGAssistant] (src/dual_model_assistant.py) and
    [AdvancedRAGAssistant] (src/advanced_example.py), together with the
    properties of their routing, fallback and history logic.

    Python values are modelled as follows.
    - A [str] is a sequence of Unicode code points, so slicing and [len]
      count what Python counts.
    - The outside world (web search, hosted models, the file system and the
      clock) is an oracle [Env]; every request is appended to a log kept in
      the program state, and the oracle answers a request from the log of
      the earlier ones, so the same request may be answered differently at
      different times.
    - A statement is a computation of the monad [M]: it maps a state to a
      result (a value or a raised exception) and a new state.
      [try ... except Exception] is [try_except]. An [exception] stands
      for an instance of [Exception], which is what every handler of the
      source catches; [print] and the clock always succeed.
    - The loop of [run] is modelled from the point where the line read has
      been stripped and compared with the command words. *)

From Stdlib Require Import String Ascii.
From Stdlib Require Import NArith Arith Lia Bool List.
Import ListNotations.

(** ** Strings *)

Definition char := N.
Definition str := list char.

(** An ASCII literal of the source as a [str]. *)
Definition lit (s : string) : str :=
  map N_of_ascii (list_ascii_of_string s).

Definition str_eq_dec : forall a b : str, {a = b} + {a <> b} :=
  list_eq_dec N.eq_dec.

(** [a in l] for a list of strings. *)
Definition str_in (a : str) (l : list str) : bool :=
  if in_dec str_eq_dec a l then true else false.

(** The newline character of an escape [\n]. *)
Definition nl : str := [10%N].

(** A character outside ASCII, by its code point. *)
Definition uni (code : N) : str := [code].

(** [l[:n]] for [n >= 0]. *)
Definition slice_to {A} (n : nat) (l : list A) : list A := firstn n l.

(** [l[-n:]] for [n > 0]: the last [n] elements, or all of [l] when it is
    shorter. *)
Definition slice_last {A} (n : nat) (l : list A) : list A :=
  skipn (length l - n) l.

(** [sep.join(l)]. *)
Fixpoint join (sep : str) (l : list str) : str :=
  match l with
  | [] => []
  | [x] => x
  | x :: rest => x ++ sep ++ join sep rest
  end.

(** [range(0, n, 2)]. *)
Definition range_by_2 (n : nat) : list nat :=
  map (fun k => 2 * k) (seq 0 (Nat.div2 (S n))).

(** [str.strip()] and [str.upper()] over the character tables of the
    Unicode database: which characters are white space, and the full
    upper-case mapping of a character. *)
Section Unicode.
Variable isspace : char -> bool.
Variable toupper_full : char -> list char.

Fixpoint lstrip (s : str) : str :=
  match s with
  | c :: rest => if isspace c then lstrip rest else s
  | [] => []
  end.

Definition rstrip (s : str) : str := rev (lstrip (rev s)).

Definition strip (s : str) : str := rstrip (lstrip s).

Definition upper (s : str) : str := flat_map toupper_full s.
End Unicode.

(** The tables restricted to ASCII text: white space is the space, the
    controls 9 to 13 and 28 to 31; lower-case letters map to upper case. *)
Definition ascii_isspace (c : char) : bool :=
  (N.eqb c 32 || (N.leb 9 c && N.leb c 13) || (N.leb 28 c && N.leb c 31))%bool.

Definition ascii_toupper_full (c : char) : list char :=
  if (N.leb 97 c && N.leb c 122)%bool then [(c - 32)%N] else [c].

(** ** The clock *)

Record datetime := {
  year : nat; month : nat; day : nat;
  hour : nat; minute : nat; second : nat; microsecond : nat
}.

Definition digit (n : nat) : char := N.of_nat (48 + n mod 10).

(** [n] in decimal on [width] digits, padded with zeros. *)
Fixpoint zero_padded (width n : nat) : str :=
  match width with
  | 0 => []
  | S w => zero_padded w (n / 10) ++ [digit n]
  end.

(** [d.strftime("%H:%M")]. *)
Definition strftime_HM (d : datetime) : str :=
  zero_padded 2 (hour d) ++ lit ":" ++ zero_padded 2 (minute d).

(** [d.isoformat()]: the fraction is printed when it is not zero. *)
Definition isoformat (d : datetime) : str :=
  zero_padded 4 (year d) ++ lit "-" ++ zero_padded 2 (month d) ++ lit "-"
    ++ zero_padded 2 (day d) ++ lit "T" ++ zero_padded 2 (hour d) ++ lit ":"
    ++ zero_padded 2 (minute d) ++ lit ":" ++ zero_padded 2 (second d)
    ++ (if Nat.eqb (microsecond d) 0 then []
        else lit "." ++ zero_padded 6 (microsecond d)).

(** ** Exceptions, requests and the program state *)

Inductive exception :=
| Exception (message : str)
| UnboundLocalError (name : str).

(** [str(e)]; the second message is the wording of CPython 3.11. *)
Definition exception_str (e : exception) : str :=
  match e with
  | Exception message => message
  | UnboundLocalError name =>
      lit "cannot access local variable '" ++ name
        ++ lit "' where it is not associated with a value"
  end.

(** The prompt-model-parser pipelines a session builds. *)
Inductive chain :=
| coordinator_chain
| qwen_chain
| gpt_chain
| combination_chain
| advanced_chain.

(** The dictionary handed to [json.dump]: keys in insertion order, each
    with a string or a list of strings. *)
Inductive json_value :=
| JString (s : str)
| JList (items : list str).

Definition json_object := list (str * json_value).

Inductive request :=
| search_run (query : str)
| chain_invoke (c : chain) (input : list (str * str))
| datetime_now
| json_dump_file (filename : str) (document : json_object).

Inductive outcome :=
| Returns (value : str)
| Raises (e : exception).

(** The world: how a service answers a request after the earlier ones,
    and what the clock shows then. The clock answers [datetime_now];
    [respond] is asked about the other requests. *)
Record Env := {
  respond : list request -> request -> outcome;
  clock : list request -> datetime
}.

(** The session's [self.conversation_history], the lines printed so far
    and the requests made so far, oldest first. *)
Record State := {
  conversation_history : list str;
  stdout : list str;
  log : list request
}.

Inductive result (A : Type) :=
| Ok (value : A)
| Err (e : exception).
Arguments Ok {A} value.
Arguments Err {A} e.

Definition M (A : Type) : Type := State -> result A * State.

Definition ret {A} (a : A) : M A := fun s => (Ok a, s).

Definition bind {A B} (m : M A) (k : A -> M B) : M B :=
  fun s =>
    match m s with
    | (Ok a, s') => k a s'
    | (Err e, s') => (Err e, s')
    end.

Definition raise {A} (e : exception) : M A := fun s => (Err e, s).

Definition try_except {A} (body : M A) (handler : exception -> M A) : M A :=
  fun s =>
    match body s with
    | (Ok a, s') => (Ok a, s')
    | (Err e, s') => handler e s'
    end.

Declare Scope py_scope.
Delimit Scope py_scope with py.
Notation "x <- m ;; k" := (bind m (fun x => k))
  (at level 100, m at next level, right associativity) : py_scope.
Notation "m ;; k" := (bind m (fun _ => k))
  (at level 100, right associativity) : py_scope.
Open Scope py_scope.

Definition record_request (r : request) (s : State) : State :=
  {| conversation_history := conversation_history s;
     stdout := stdout s;
     log := log s ++ [r] |}.

Definition printed (line : str) (s : State) : State :=
  {| conversation_history := conversation_history s;
     stdout := stdout s ++ [line];
     log := log s |}.

(** [print(line)]. *)
Definition print (line : str) : M unit := fun s => (Ok tt, printed line s).

(** [self.conversation_history]. *)
Definition get_history : M (list str) :=
  fun s => (Ok (conversation_history s), s).

Definition with_history (h : list str) (s : State) : State :=
  {| conversation_history := h;
     stdout := stdout s;
     log := log s |}.

(** [self.conversation_history = h]. *)
Definition set_history (h : list str) : M unit :=
  fun s => (Ok tt, with_history h s).

(** What a guarded call gives back: the service's answer, or the text
    that stands for its failure. *)
Definition answer_or (prefix suffix : str) (o : outcome) : str :=
  match o with
  | Returns v => v
  | Raises e => prefix ++ exception_str e ++ suffix
  end.

Section World.
Variable env : Env.

(** A request to a service: its answer, or the exception it raises. *)
Definition call (r : request) : M str :=
  fun s =>
    match respond env (log s) r with
    | Returns v => (Ok v, record_request r s)
    | Raises e => (Err e, record_request r s)
    end.

(** [datetime.now()]. *)
Definition now : M datetime :=
  fun s => (Ok (clock env (log s)), record_request datetime_now s).
End World.

(** The state after a run of recorded exchanges, each a question and its
    answer, through a recorder [add]. *)
Definition run_exchanges (add : str -> str -> M unit)
    (exchanges : list (str * str)) (s : State) : State :=
  fold_left (fun st qa => snd (add (fst qa) (snd qa) st)) exchanges s.

(** A history made of whole exchanges: question entry, answer entry. *)
Definition entries_of (exchanges : list (str * str)) : list str :=
  flat_map (fun qa => [fst qa; snd qa]) exchanges.

(** ** The dual-model session, src/dual_model_assistant.py *)

Module Dual.
Section Session.
Variable env : Env.
Variable isspace : char -> bool.
Variable toupper_full : char -> list char.

(** The dictionaries the four chains are invoked with. *)
Definition coordinator_request (question context : str) : request :=
  chain_invoke coordinator_chain
    [(lit "question", question); (lit "context", context)].

Definition qwen_request (question context : str) : request :=
  chain_invoke qwen_chain
    [(lit "question", question); (lit "context", context)].

Definition gpt_request (question context : str) : request :=
  chain_invoke gpt_chain
    [(lit "question", question); (lit "context", context)].

Definition combination_request
    (question context qwen_response gpt_response : str) : request :=
  chain_invoke combination_chain
    [(lit "question", question);
     (lit "context", context);
     (lit "qwen_response", qwen_response);
     (lit "gpt_response", gpt_response)].

(** The labels the coordinator prompt asks for. *)
Definition strategies : list str :=
  [lit "QWEN"; lit "GPT"; lit "BOTH"; lit "QWEN_THEN_GPT"].

Definition search_with_error_handling (question : str) : M str :=
  try_except
    (results <- call env (search_run question);;
     ret results)
    (fun e =>
       ret (lit "Search unavailable: " ++ exception_str e
              ++ lit ". Using model knowledge only.")).

Definition determine_model_strategy (question context : str) : M str :=
  try_except
    (raw <- call env (coordinator_request question context);;
     let strategy := upper toupper_full (strip isspace raw) in
     let strategy :=
       if negb (str_in strategy strategies) then lit "GPT" else strategy in
     ret strategy)
    (fun e =>
       print (uni 9888 ++ uni 65039 ++ lit " Strategy determination failed: "
                ++ exception_str e);;
       ret (lit "GPT")).

Definition get_qwen_response (question context : str) : M str :=
  try_except
    (call env (qwen_request question context))
    (fun e => ret (lit "Qwen model error: " ++ exception_str e)).

Definition get_gpt_response (question context : str) : M str :=
  try_except
    (call env (gpt_request question context))
    (fun e => ret (lit "GPT model error: " ++ exception_str e)).

Definition combine_responses
    (question context qwen_response gpt_response : str) : M str :=
  try_except
    (call env (combination_request question context
                 qwen_response gpt_response))
    (fun e =>
       ret (lit "**Combined Response:**" ++ nl ++ nl
              ++ lit "**Qwen3-VL:** " ++ qwen_response ++ nl ++ nl
              ++ lit "**GPT-OSS:** " ++ gpt_response)).

(** The context the refining call of the sequential strategy receives. *)
Definition refined_context (qwen_response context : str) : str :=
  lit "Previous analysis: " ++ qwen_response ++ nl ++ nl
    ++ lit "Original context: " ++ context.

(** The [if]/[elif] chain of [process_question] and its [return]. The
    chain has no [else]: the locals [response] and [model_info] are bound
    only in a branch that is taken, and the [return] reads [model_info]
    first. *)
Definition answer_with_strategy (strategy question context : str) : M str :=
  locals <-
    (if str_eq_dec strategy (lit "QWEN") then
       print (uni 128993 ++ lit " Using Qwen3-VL model...");;
       response <- get_qwen_response question context;;
       ret (Some (response, lit "**Model Used:** Qwen3-VL"))
     else if str_eq_dec strategy (lit "GPT") then
       print (uni 128309 ++ lit " Using GPT-OSS model...");;
       response <- get_gpt_response question context;;
       ret (Some (response, lit "**Model Used:** GPT-OSS"))
     else if str_eq_dec strategy (lit "BOTH") then
       print (uni 128993 ++ lit " Getting Qwen3-VL response...");;
       qwen_response <- get_qwen_response question context;;
       print (uni 128309 ++ lit " Getting GPT-OSS response...");;
       gpt_response <- get_gpt_response question context;;
       print (uni 128260 ++ lit " Combining responses...");;
       response <- combine_responses question context
                     qwen_response gpt_response;;
       ret (Some (response,
                  lit "**Models Used:** Qwen3-VL + GPT-OSS (Combined)"))
     else if str_eq_dec strategy (lit "QWEN_THEN_GPT") then
       print (uni 128993 ++ lit " Getting Qwen3-VL response...");;
       qwen_response <- get_qwen_response question context;;
       print (uni 128309 ++ lit " Refining with GPT-OSS...");;
       response <- get_gpt_response question
                     (refined_context qwen_response context);;
       ret (Some (response,
                  lit "**Models Used:** Qwen3-VL " ++ uni 8594
                    ++ lit " GPT-OSS (Sequential)"))
     else ret None);;
  match locals with
  | Some (response, model_info) => ret (model_info ++ nl ++ nl ++ response)
  | None => raise (UnboundLocalError (lit "model_info"))
  end.

Definition process_question (question : str) : M str :=
  print (uni 128269 ++ lit " Searching web...");;
  context <- search_with_error_handling question;;
  print (uni 129302 ++ lit " Determining optimal model strategy...");;
  strategy <- determine_model_strategy question context;;
  print (uni 128203 ++ lit " Strategy: " ++ strategy);;
  answer_with_strategy strategy question context.

Definition add_to_history (question answer : str) : M unit :=
  d <- now env;;
  let timestamp := strftime_HM d in
  h <- get_history;;
  set_history
    (h ++ [lit "[" ++ timestamp ++ lit "] " ++ question;
           lit "[" ++ timestamp ++ lit "] " ++ slice_to 300 answer
             ++ lit "..."]);;
  h <- get_history;;
  if 20 <? length h then set_history (slice_last 20 h) else ret tt.

(** For comparison: the recorder without its last two lines, which keeps
    every entry. *)
Definition add_to_history_unbounded (question answer : str) : M unit :=
  d <- now env;;
  let timestamp := strftime_HM d in
  h <- get_history;;
  set_history
    (h ++ [lit "[" ++ timestamp ++ lit "] " ++ question;
           lit "[" ++ timestamp ++ lit "] " ++ slice_to 300 answer
             ++ lit "..."]).

Definition default_filename : str := lit "dual_model_conversation.json".

Definition save_conversation (filename : str) : M unit :=
  d <- now env;;
  h <- get_history;;
  let conversation_data : json_object :=
    [(lit "timestamp", JString (isoformat d));
     (lit "models_used",
      JList [lit "qwen3-vl:235b-cloud"; lit "gpt-oss:120b-cloud"]);
     (lit "history", JList h)] in
  try_except
    (call env (json_dump_file filename conversation_data);;
     print (uni 128190 ++ lit " Conversation saved to " ++ filename))
    (fun e =>
       print (uni 10060 ++ lit " Could not save conversation: "
                ++ exception_str e)).
End Session.
End Dual.

(** ** The single-model session with history, src/advanced_example.py *)

Module Advanced.
Section Session.
Variable env : Env.

Definition search_with_error_handling (question : str) : M str :=
  try_except
    (results <- call env (search_run question);;
     ret results)
    (fun e =>
       ret (lit "Search unavailable: " ++ exception_str e
              ++ lit ". Using general knowledge only.")).

(** One entry of [formatted]. *)
Definition exchange_block (q a : str) : str :=
  lit "Q: " ++ q ++ nl ++ lit "A: " ++ slice_to 200 a ++ lit "...".

(** The [for] loop of [format_history] over [range(0, len, 2)]. *)
Definition format_pairs (recent_history : list str) : list str :=
  fold_left
    (fun formatted i =>
       if i + 1 <? length recent_history then
         let q := nth i recent_history [] in
         let a := nth (i + 1) recent_history [] in
         formatted ++ [exchange_block q a]
       else formatted)
    (range_by_2 (length recent_history)) [].

(** The same loop as a recursion on the entries, two at a time. *)
Fixpoint format_exchanges (entries : list str) : list str :=
  match entries with
  | q :: a :: rest => exchange_block q a :: format_exchanges rest
  | _ => []
  end.

Definition format_history : M str :=
  h <- get_history;;
  match h with
  | [] => ret (lit "No previous conversation.")
  | _ :: _ =>
      let recent_history := slice_last 6 h in
      let formatted := format_pairs recent_history in
      ret (join (nl ++ nl) formatted)
  end.

Definition add_to_history (question answer : str) : M unit :=
  d <- now env;;
  let timestamp := strftime_HM d in
  h <- get_history;;
  set_history
    (h ++ [lit "[" ++ timestamp ++ lit "] " ++ question;
           lit "[" ++ timestamp ++ lit "] " ++ answer]);;
  h <- get_history;;
  if 20 <? length h then set_history (slice_last 20 h) else ret tt.

(** For comparison: the recorder without its last two lines, which keeps
    every entry. *)
Definition add_to_history_unbounded (question answer : str) : M unit :=
  d <- now env;;
  let timestamp := strftime_HM d in
  h <- get_history;;
  set_history
    (h ++ [lit "[" ++ timestamp ++ lit "] " ++ question;
           lit "[" ++ timestamp ++ lit "] " ++ answer]).

Definition default_filename : str := lit "conversation_log.json".

Definition save_conversation (filename : str) : M unit :=
  d <- now env;;
  h <- get_history;;
  let conversation_data : json_object :=
    [(lit "timestamp", JString (isoformat d));
     (lit "history", JList h)] in
  try_except
    (call env (json_dump_file filename conversation_data);;
     print (uni 128190 ++ lit " Conversation saved to " ++ filename))
    (fun e =>
       print (uni 10060 ++ lit " Could not save conversation: "
                ++ exception_str e)).

(** [self.chain.invoke({"question": q})]: the two assigned keys are
    computed from the session, then the prompt goes to the model. *)
Definition chain_invoke_question (question : str) : M str :=
  context <- search_with_error_handling question;;
  history <- format_history;;
  call env (chain_invoke advanced_chain
              [(lit "question", question);
               (lit "context", context);
               (lit "history", history)]).

(** What a line read by [run] asks for, once stripped and compared with
    the command words. *)
Inductive command :=
| Exit
| Save
| Clear
| Empty
| Question (user_question : str).

(** One turn of the loop of [run]; [false] is [break]. *)
Definition run_command (c : command) : M bool :=
  try_except
    (match c with
     | Exit =>
         print (uni 129302 ++ lit " Goodbye! Thanks for chatting!");;
         ret false
     | Save =>
         save_conversation default_filename;;
         ret true
     | Clear =>
         set_history [];;
         print (uni 129302 ++ lit " Conversation history cleared!");;
         ret true
     | Empty => ret true
     | Question user_question =>
         print (uni 129302 ++ lit " Searching and thinking...");;
         response <- chain_invoke_question user_question;;
         add_to_history user_question response;;
         print (uni 129302 ++ lit ": " ++ response);;
         ret true
     end)
    (fun e =>
       print (uni 129302 ++ lit " Sorry, I encountered an error: "
                ++ exception_str e);;
       print (uni 129302 ++ lit " Please try again.");;
       ret true).

(** The states a session goes through: [__init__] leaves an empty
    history, and every later state comes from a turn of the loop. *)
Inductive reachable : State -> Prop :=
| reachable_init : forall s,
    conversation_history s = [] -> reachable s
| reachable_step : forall s c,
    reachable s -> reachable (snd (run_command c s)).
End Session.
End Advanced.


(** ** The loops

    What happens at the console is given as a list of events, one for each
    time the loop reads: a line typed, an interrupt, or the end of the
    input. A loop goes through them in order and stops at the first one
    that makes it leave; when the events run out the loop is still
    running, about to read again. A line is stripped and compared, in
    lower case, with the command words; [lower] is [str.lower]. The prompt
    written by [input] is not recorded, and an interrupt is taken where
    the loop waits, at the prompt. *)

(** What [input] does when the loop reads. *)
Inductive console_event :=
| Typed (line : str)
| Interrupt
| EndOfInput.

(** The [EOFError] that [input] raises at the end of the input. *)
Definition end_of_file : exception :=
  Exception (lit "EOF when reading a line").

(** The words that end every loop. *)
Definition exit_words : list str :=
  [lit "exit"; lit "quit"; lit "bye"; lit "goodbye"].

(** [str.lower] on ASCII text. *)
Definition ascii_lower (s : str) : str :=
  map (fun c => if (N.leb 65 c && N.leb c 90)%bool then (c + 32)%N else c) s.

(** The loop of [DualModelRAGAssistant.run]. *)
Module DualLoop.
Section Session.
Variable env : Env.
Variable isspace : char -> bool.
Variable toupper_full : char -> list char.
Variable lower : str -> str.

Inductive command :=
| Exit
| Save
| Clear
| Models
| Empty
| Question (user_question : str).

(** The chain of [if] tests on the stripped line, in the order of the
    source. *)
Definition classify (user_question : str) : command :=
  if str_in (lower user_question) exit_words then Exit
  else if str_eq_dec (lower user_question) (lit "save") then Save
  else if str_in (lower user_question) [lit "clear"; lit "clear history"]
  then Clear
  else if str_eq_dec (lower user_question) (lit "models") then Models
  else match user_question with
       | [] => Empty
       | _ :: _ => Question user_question
       end.

(** One turn of the loop; [false] is [break]. *)
Definition run_command (c : command) : M bool :=
  try_except
    (match c with
     | Exit =>
         print (uni 129302
                  ++ lit " Goodbye! Thanks for using the dual-model assistant!");;
         ret false
     | Save =>
         Dual.save_conversation env Dual.default_filename;;
         ret true
     | Clear =>
         set_history [];;
         print (uni 129302 ++ lit " Conversation history cleared!");;
         ret true
     | Models =>
         print (uni 128993
                  ++ lit " Qwen3-VL: qwen3-vl:235b-cloud - Vision, multimodal tasks");;
         print (uni 128309
                  ++ lit " GPT-OSS: gpt-oss:120b-cloud - General reasoning, analysis");;
         ret true
     | Empty => ret true
     | Question user_question =>
         response <- Dual.process_question env isspace toupper_full
                       user_question;;
         Dual.add_to_history env user_question response;;
         print (nl ++ uni 129302 ++ lit ": " ++ response);;
         ret true
     end)
    (fun e =>
       print (uni 129302 ++ lit " Sorry, I encountered an error: "
                ++ exception_str e);;
       print (uni 129302 ++ lit " Please try again.");;
       ret true).

Definition run_line (line : str) : M bool :=
  run_command (classify (strip isspace line)).

(** One pass through the body of [while True], on what [input] does. An
    interrupt leaves through [except KeyboardInterrupt]; at the end of the
    input [input] raises [EOFError], which [except Exception] catches. *)
Definition run_event (event : console_event) : M bool :=
  match event with
  | Typed line => run_line line
  | Interrupt =>
      print (nl ++ uni 129302 ++ lit " Goodbye!");;
      ret false
  | EndOfInput =>
      try_except (raise end_of_file)
        (fun e =>
           print (uni 129302 ++ lit " Sorry, I encountered an error: "
                    ++ exception_str e);;
           print (uni 129302 ++ lit " Please try again.");;
           ret true)
  end.

(** The loop on the events so far: [true] when it is still running and
    reads again, [false] when it has left through [break]. *)
Fixpoint run_events (events : list console_event) : M bool :=
  match events with
  | [] => ret true
  | event :: rest =>
      continue <- run_event event;;
      if continue then run_events rest else ret false
  end.

(** The loop on lines typed one after the other. *)
Definition run_lines (lines : list str) : M bool :=
  run_events (map Typed lines).

Definition run (events : list console_event) : M bool :=
  print (uni 129302 ++ lit " Dual-Model Real-Time AI Assistant is ready!");;
  print (uni 128993 ++ lit " Qwen3-VL: Vision, multimodal, Chinese language");;
  print (uni 128309 ++ lit " GPT-OSS: General reasoning, complex analysis");;
  print (uni 128260 ++ lit " Smart model selection and combination");;
  print (uni 128203 ++ lit " Commands: 'exit', 'save', 'clear', 'models'");;
  print (nl ++ uni 129302
           ++ lit " Hello! I can use both models to give you the best answers. What would you like to know?");;
  run_events events.

(** The states a session goes through. *)
Inductive reachable : State -> Prop :=
| reachable_init : forall s,
    conversation_history s = [] -> reachable s
| reachable_step : forall s c,
    reachable s -> reachable (snd (run_command c s)).
End Session.
End DualLoop.

(** The loop of [AdvancedRAGAssistant.run], over the turns of
    [Advanced.run_command]. *)
Module AdvancedLoop.
Section Session.
Variable env : Env.
Variable isspace : char -> bool.
Variable lower : str -> str.

Definition classify (user_question : str) : Advanced.command :=
  if str_in (lower user_question) exit_words then Advanced.Exit
  else if str_eq_dec (lower user_question) (lit "save") then Advanced.Save
  else if str_in (lower user_question) [lit "clear history"; lit "clear"]
  then Advanced.Clear
  else match user_question with
       | [] => Advanced.Empty
       | _ :: _ => Advanced.Question user_question
       end.

Definition run_line (line : str) : M bool :=
  Advanced.run_command env (classify (strip isspace line)).

(** One pass through the body of [while True], on what [input] does. An
    interrupt leaves through [except KeyboardInterrupt]; at the end of the
    input [input] raises [EOFError], which [except Exception] catches. *)
Definition run_event (event : console_event) : M bool :=
  match event with
  | Typed line => run_line line
  | Interrupt =>
      print (nl ++ uni 129302 ++ lit " Goodbye!");;
      ret false
  | EndOfInput =>
      try_except (raise end_of_file)
        (fun e =>
           print (uni 129302 ++ lit " Sorry, I encountered an error: "
                    ++ exception_str e);;
           print (uni 129302 ++ lit " Please try again.");;
           ret true)
  end.

(** The loop on the events so far: [true] when it is still running and
    reads again, [false] when it has left through [break]. *)
Fixpoint run_events (events : list console_event) : M bool :=
  match events with
  | [] => ret true
  | event :: rest =>
      continue <- run_event event;;
      if continue then run_events rest else ret false
  end.

(** The loop on lines typed one after the other. *)
Definition run_lines (lines : list str) : M bool :=
  run_events (map Typed lines).

Definition run (events : list console_event) : M bool :=
  print (uni 129302 ++ lit " Advanced Real-Time AI Assistant is ready!");;
  print (uni 129302
           ++ lit " Features: Web search, conversation memory, source citations");;
  print (uni 129302 ++ lit " Commands: 'exit', 'save', 'clear history'");;
  print (uni 129302 ++ lit " Hello! What would you like to know?");;
  run_events events.
End Session.
End AdvancedLoop.

(** ** The side-by-side script, src/simple_dual_model.py

    Each of its two chains runs the search itself, unguarded, before its
    model. *)
Module Simple.
Section Session.
Variable env : Env.
Variable isspace : char -> bool.
Variable lower : str -> str.

(** [qwen_chain.invoke({"question": q})]. *)
Definition qwen_chain_invoke (question : str) : M str :=
  context <- call env (search_run question);;
  call env (chain_invoke qwen_chain
              [(lit "question", question); (lit "context", context)]).

(** [gpt_chain.invoke({"question": q})]. *)
Definition gpt_chain_invoke (question : str) : M str :=
  context <- call env (search_run question);;
  call env (chain_invoke gpt_chain
              [(lit "question", question); (lit "context", context)]).

(** The body of the loop for a question. *)
Definition answer_question (user_question : str) : M unit :=
  print (uni 128269 ++ lit " Searching web and thinking with both models...");;
  print (uni 128993 ++ lit " Getting Qwen3-VL response...");;
  qwen_response <-
    try_except (qwen_chain_invoke user_question)
      (fun e => ret (lit "Qwen3-VL Error: " ++ exception_str e));;
  print (uni 128309 ++ lit " Getting GPT-OSS response...");;
  gpt_response <-
    try_except (gpt_chain_invoke user_question)
      (fun e => ret (lit "GPT-OSS Error: " ++ exception_str e));;
  print (nl ++ repeat 61%N 80);;
  print (uni 128993 ++ lit " QWEN3-VL RESPONSE:");;
  print (repeat 45%N 40);;
  print qwen_response;;
  print (nl ++ repeat 61%N 80);;
  print (uni 128309 ++ lit " GPT-OSS RESPONSE:");;
  print (repeat 45%N 40);;
  print gpt_response;;
  print (repeat 61%N 80).

(** One turn of the loop on a line read; [false] is [break]. *)
Definition run_line (line : str) : M bool :=
  try_except
    (let user_question := strip isspace line in
     if str_in (lower user_question) exit_words then
       print (uni 129302 ++ lit " Goodbye!");;
       ret false
     else
       match user_question with
       | [] => ret true
       | _ :: _ =>
           answer_question user_question;;
           ret true
       end)
    (fun e =>
       print (uni 129302 ++ lit " Sorry, I encountered an error: "
                ++ exception_str e);;
       print (uni 129302 ++ lit " Please try again.");;
       ret true).

(** One pass through the body of [while True], on what [input] does. An
    interrupt leaves through [except KeyboardInterrupt]; at the end of the
    input [input] raises [EOFError], which [except Exception] catches. *)
Definition run_event (event : console_event) : M bool :=
  match event with
  | Typed line => run_line line
  | Interrupt =>
      print (nl ++ uni 129302 ++ lit " Goodbye!");;
      ret false
  | EndOfInput =>
      try_except (raise end_of_file)
        (fun e =>
           print (uni 129302 ++ lit " Sorry, I encountered an error: "
                    ++ exception_str e);;
           print (uni 129302 ++ lit " Please try again.");;
           ret true)
  end.

(** The loop on the events so far: [true] when it is still running and
    reads again, [false] when it has left through [break]. *)
Fixpoint run_events (events : list console_event) : M bool :=
  match events with
  | [] => ret true
  | event :: rest =>
      continue <- run_event event;;
      if continue then run_events rest else ret false
  end.

(** The loop on lines typed one after the other. *)
Definition run_lines (lines : list str) : M bool :=
  run_events (map Typed lines).

Definition main (events : list console_event) : M bool :=
  print (uni 129302
           ++ lit " Initializing Dual-Model Real-Time AI Assistant...");;
  print (uni 128993 ++ lit " Loading Qwen3-VL (235B Cloud)...");;
  print (uni 128309 ++ lit " Loading GPT-OSS (120B Cloud)...");;
  print (uni 129302 ++ lit " Dual-Model Assistant Ready!");;
  print (uni 129302
           ++ lit " I'll show you responses from both models for comparison.");;
  print (uni 129302 ++ lit " Hello! What would you like to know?");;
  run_events events.
End Session.
End Simple.

(** ** The single-model script, src/assistant.py

    Its one chain, on the GPT-OSS model, is logged as [gpt_chain]. *)
Module Basic.
Section Session.
Variable env : Env.
Variable isspace : char -> bool.
Variable lower : str -> str.

(** [chain.invoke({"question": q})]. *)
Definition chain_invoke_question (question : str) : M str :=
  context <- call env (search_run question);;
  call env (chain_invoke gpt_chain
              [(lit "question", question); (lit "context", context)]).

(** One turn of the loop on a line read; [false] is [break]. *)
Definition run_line (line : str) : M bool :=
  try_except
    (let user_question := strip isspace line in
     if str_in (lower user_question) exit_words then
       print (uni 129302 ++ lit " Goodbye!");;
       ret false
     else
       match user_question with
       | [] => ret true
       | _ :: _ =>
           print (uni 129302 ++ lit " Thinking...");;
           response <- chain_invoke_question user_question;;
           print (uni 129302 ++ lit ": " ++ response);;
           print [];;
           ret true
       end)
    (fun e =>
       print (uni 129302 ++ lit " Sorry, I encountered an error: "
                ++ exception_str e);;
       print (uni 129302 ++ lit " Please try again.");;
       ret true).

(** One pass through the body of [while True], on what [input] does. An
    interrupt leaves through [except KeyboardInterrupt]; at the end of the
    input [input] raises [EOFError], which [except Exception] catches. *)
Definition run_event (event : console_event) : M bool :=
  match event with
  | Typed line => run_line line
  | Interrupt =>
      print (nl ++ uni 129302 ++ lit " Goodbye!");;
      ret false
  | EndOfInput =>
      try_except (raise end_of_file)
        (fun e =>
           print (uni 129302 ++ lit " Sorry, I encountered an error: "
                    ++ exception_str e);;
           print (uni 129302 ++ lit " Please try again.");;
           ret true)
  end.

(** The loop on the events so far: [true] when it is still running and
    reads again, [false] when it has left through [break]. *)
Fixpoint run_events (events : list console_event) : M bool :=
  match events with
  | [] => ret true
  | event :: rest =>
      continue <- run_event event;;
      if continue then run_events rest else ret false
  end.

(** The loop on lines typed one after the other. *)
Definition run_lines (lines : list str) : M bool :=
  run_events (map Typed lines).

Definition main (events : list console_event) : M bool :=
  print (uni 129302 ++ lit " Initializing Real-Time AI Assistant...");;
  print (uni 129302 ++ lit " Real-Time AI Assistant is ready!");;
  print (uni 129302
           ++ lit " Hello! I'm a real-time AI assistant. What's new?");;
  run_events events.
End Session.
End Basic.


(** ** A scripted world

    The first scenario of the specification: the search finds a sentence
    on Paris, the coordinator answers [both] in lower case and with white
    space around it, the two models answer, and the combiner is down. The
    file system refuses every write. *)

Definition paris_respond (earlier : list request) (r : request) : outcome :=
  match r with
  | search_run _ => Returns (lit "Paris is the capital of France.")
  | chain_invoke coordinator_chain _ => Returns (lit " both" ++ nl)
  | chain_invoke qwen_chain _ => Returns (lit "Paris")
  | chain_invoke gpt_chain _ => Returns (lit "The capital is Paris.")
  | chain_invoke combination_chain _ => Raises (Exception (lit "timed out"))
  | chain_invoke advanced_chain _ => Returns (lit "Paris.")
  | datetime_now => Returns []
  | json_dump_file _ _ => Raises (Exception (lit "Permission denied"))
  end.

Definition noon : datetime :=
  {| year := 2025; month := 1; day := 15;
     hour := 12; minute := 0; second := 0; microsecond := 0 |}.

Definition paris_env : Env :=
  {| respond := paris_respond; clock := fun _ => noon |}.

(** A world whose coordinator picks the sequential strategy and whose
    search is down. *)
Definition sequential_env : Env :=
  {| respond := fun earlier r =>
       match r with
       | search_run _ => Raises (Exception (lit "no network"))
       | chain_invoke coordinator_chain _ => Returns (lit "qwen_then_gpt")
       | other => paris_respond earlier other
       end;
     clock := fun _ => noon |}.

Definition fresh : State :=
  {| conversation_history := []; stdout := []; log := [] |}.

Definition the_question : str := lit "capital of France".

(** A world in which every service is down. *)
Definition outage_env : Env :=
  {| respond := fun earlier r =>
       match r with
       | search_run _ => Raises (Exception (lit "no network"))
       | _ => Raises (Exception (lit "connection refused"))
       end;
     clock := fun _ => noon |}.

(** A world whose search fails the first time it is asked and works
    afterwards. *)
Definition flaky_search_env : Env :=
  {| respond := fun earlier r =>
       match r, earlier with
       | search_run _, [] => Raises (Exception (lit "timed out"))
       | other, _ => paris_respond earlier other
       end;
     clock := fun _ => noon |}.

(** A world whose coordinator picks Qwen alone. *)
Definition qwen_env : Env :=
  {| respond := fun earlier r =>
       match r with
       | chain_invoke coordinator_chain _ => Returns (lit "Qwen ")
       | other => paris_respond earlier other
       end;
     clock := fun _ => noon |}.


(** * Properties *)

(** ** Lists and strings *)

Lemma slice_last_length {A} (n : nat) (l : list A) :
  length (slice_last n l) = Nat.min n (length l).
Proof.
  unfold slice_last. rewrite length_skipn. lia.
Qed.

Lemma slice_last_all {A} (n : nat) (l : list A) :
  length l <= n -> slice_last n l = l.
Proof.
  intros Hle. unfold slice_last.
  replace (length l - n) with 0 by lia. reflexivity.
Qed.

(** The slice is the end of the list: what it drops is a prefix. *)
Lemma slice_last_suffix {A} (n : nat) (l : list A) :
  firstn (length l - n) l ++ slice_last n l = l.
Proof.
  unfold slice_last. apply firstn_skipn.
Qed.

Lemma slice_last_app_slice_last {A} (n : nat) (l x : list A) :
  slice_last n (slice_last n l ++ x) = slice_last n (l ++ x).
Proof.
  destruct (Nat.le_gt_cases (length l) n) as [Hle | Hgt].
  - rewrite (slice_last_all n l Hle). reflexivity.
  - unfold slice_last. rewrite !length_app, length_skipn.
    replace (length l - (length l - n) + length x - n)
      with (length x) by lia.
    replace (length l + length x - n)
      with (length x + (length l - n)) by lia.
    rewrite <- skipn_skipn, (skipn_app (length l - n) l x).
    replace (length l - n - length l) with 0 by lia.
    reflexivity.
Qed.

Lemma list_pair_ind {A} (P : list A -> Prop) :
  P [] ->
  (forall x, P [x]) ->
  (forall x y l, P l -> P (x :: y :: l)) ->
  forall l, P l.
Proof.
  intros Hnil Hone Hstep l.
  enough (H : P l /\ forall x, P (x :: l)) by apply H.
  induction l as [| y l [IHl IHcons]].
  - split; [exact Hnil | exact Hone].
  - split; [apply IHcons|]. intros x. apply Hstep. exact IHl.
Qed.

(** A loop that appends under a condition collects, in order, what the
    iterations that pass the condition append. *)
Lemma fold_left_guarded_append {A B} (guard : A -> bool) (item : A -> B)
    (xs : list A) (acc : list B) :
  fold_left
    (fun formatted i => if guard i then formatted ++ [item i] else formatted)
    xs acc
  = acc ++ flat_map (fun i => if guard i then [item i] else []) xs.
Proof.
  revert acc. induction xs as [| x xs IH]; intros acc; cbn [fold_left flat_map].
  - rewrite app_nil_r. reflexivity.
  - rewrite IH. destruct (guard x).
    + rewrite <- app_assoc. reflexivity.
    + reflexivity.
Qed.

Lemma flat_map_map {A B C} (f : B -> list C) (g : A -> B) (l : list A) :
  flat_map f (map g l) = flat_map (fun x => f (g x)) l.
Proof.
  induction l as [| x l IH]; cbn; [reflexivity|]. rewrite IH. reflexivity.
Qed.

Lemma range_by_2_step (n : nat) :
  range_by_2 (S (S n)) = 0 :: map (fun i => S (S i)) (range_by_2 n).
Proof.
  unfold range_by_2.
  change (Nat.div2 (S (S (S n)))) with (S (Nat.div2 (S n))).
  cbn [seq map]. rewrite <- seq_shift, !map_map. f_equal.
  apply map_ext. intros k. lia.
Qed.

Lemma entries_of_length (exchanges : list (str * str)) :
  length (entries_of exchanges) = 2 * length exchanges.
Proof.
  induction exchanges as [| qa rest IH]; cbn; [reflexivity|].
  unfold entries_of in IH. rewrite IH. lia.
Qed.

Lemma skipn_entries_of (k : nat) (exchanges : list (str * str)) :
  skipn (2 * k) (entries_of exchanges) = entries_of (skipn k exchanges).
Proof.
  revert exchanges. induction k as [| k IH]; intros exchanges.
  - reflexivity.
  - destruct exchanges as [| qa rest]; [reflexivity|].
    replace (2 * S k) with (S (S (2 * k))) by lia. cbn. apply IH.
Qed.

Lemma slice_last_entries_of (n : nat) (exchanges : list (str * str)) :
  slice_last (2 * n) (entries_of exchanges)
    = entries_of (slice_last n exchanges).
Proof.
  unfold slice_last. rewrite entries_of_length.
  replace (2 * length exchanges - 2 * n)
    with (2 * (length exchanges - n)) by lia.
  apply skipn_entries_of.
Qed.

Lemma str_in_true (a : str) (l : list str) : str_in a l = true <-> In a l.
Proof.
  unfold str_in. destruct (in_dec str_eq_dec a l); split; intros; try easy.
Qed.

Lemma str_in_false (a : str) (l : list str) : str_in a l = false <-> ~ In a l.
Proof.
  unfold str_in. destruct (in_dec str_eq_dec a l); split; intros; try easy.
Qed.

(** ** Running a computation *)

Lemma Ok_inj {A} (a b : A) : Ok a = Ok b -> a = b.
Proof. intros H. injection H as H. exact H. Qed.

Lemma bind_assoc {A B C} (m : M A) (k : A -> M B) (k' : B -> M C) (s : State) :
  bind (bind m k) k' s = bind m (fun a => bind (k a) k') s.
Proof.
  unfold bind. destruct (m s) as [[a | e] s']; reflexivity.
Qed.

Lemma bind_ok {A B} (m : M A) (k : A -> M B) (s s' : State) (a : A) :
  m s = (Ok a, s') -> bind m k s = k a s'.
Proof.
  intros Hm. unfold bind. rewrite Hm. reflexivity.
Qed.

Lemma bind_err {A B} (m : M A) (k : A -> M B) (s s' : State) (e : exception) :
  m s = (Err e, s') -> bind m k s = (Err e, s').
Proof.
  intros Hm. unfold bind. rewrite Hm. reflexivity.
Qed.

Lemma try_except_ok {A} (body : M A) (handler : exception -> M A)
    (s s' : State) (a : A) :
  body s = (Ok a, s') -> try_except body handler s = (Ok a, s').
Proof.
  intros Hbody. unfold try_except. rewrite Hbody. reflexivity.
Qed.

Lemma try_except_err {A} (body : M A) (handler : exception -> M A)
    (s s' : State) (e : exception) :
  body s = (Err e, s') -> try_except body handler s = handler e s'.
Proof.
  intros Hbody. unfold try_except. rewrite Hbody. reflexivity.
Qed.

Lemma bind_ret {A B} (a : A) (k : A -> M B) (s : State) :
  bind (ret a) k s = k a s.
Proof. reflexivity. Qed.

Lemma bind_print {B} (line : str) (k : unit -> M B) (s : State) :
  bind (print line) k s = k tt (printed line s).
Proof. reflexivity. Qed.

Lemma bind_get_history {B} (k : list str -> M B) (s : State) :
  bind get_history k s = k (conversation_history s) s.
Proof. reflexivity. Qed.

Lemma bind_set_history {B} (h : list str) (k : unit -> M B) (s : State) :
  bind (set_history h) k s = k tt (with_history h s).
Proof. reflexivity. Qed.

Lemma bind_now {B} (env : Env) (k : datetime -> M B) (s : State) :
  bind (now env) k s = k (clock env (log s)) (record_request datetime_now s).
Proof. reflexivity. Qed.

Lemma log_printed (line : str) (s : State) : log (printed line s) = log s.
Proof. reflexivity. Qed.

Lemma log_record_request (r : request) (s : State) :
  log (record_request r s) = log s ++ [r].
Proof. reflexivity. Qed.

Lemma history_printed (line : str) (s : State) :
  conversation_history (printed line s) = conversation_history s.
Proof. reflexivity. Qed.

Lemma history_record_request (r : request) (s : State) :
  conversation_history (record_request r s) = conversation_history s.
Proof. reflexivity. Qed.

Create Rewrite HintDb session.
Lemma log_with_history (h : list str) (s : State) :
  log (with_history h s) = log s.
Proof. reflexivity. Qed.

Lemma history_with_history (h : list str) (s : State) :
  conversation_history (with_history h s) = h.
Proof. reflexivity. Qed.

#[local] Hint Rewrite log_printed log_record_request log_with_history
  history_printed history_record_request history_with_history : session.

(** Rewriting a computation applied to a state, one statement at a time. *)
Create Rewrite HintDb run.
#[local] Hint Rewrite @bind_assoc @bind_ret @bind_print
  @bind_get_history @bind_set_history @bind_now : run.

Ltac run := repeat (progress (autorewrite with run; cbv beta)).

(** ** A recorder that appends two entries and keeps the last twenty

    Both sessions record an exchange the same way, up to the text of the
    two entries. *)

Section Recorder.
Variable env : Env.
Variable add add_unbounded : str -> str -> M unit.
Variable entries : datetime -> str -> str -> list str.

Hypothesis add_run : forall question answer s,
  add question answer s
    = (Ok tt,
       with_history
         (slice_last 20
            (conversation_history s
               ++ entries (clock env (log s)) question answer))
         (record_request datetime_now s)).

Hypothesis add_unbounded_run : forall question answer s,
  add_unbounded question answer s
    = (Ok tt,
       with_history
         (conversation_history s
            ++ entries (clock env (log s)) question answer)
         (record_request datetime_now s)).

Hypothesis entries_two : forall d question answer,
  length (entries d question answer) = 2.

Lemma recorder_length (question answer : str) (s : State) :
  length (conversation_history (snd (add question answer s)))
    = Nat.min 20 (length (conversation_history s) + 2).
Proof.
  rewrite add_run. cbn [snd]. autorewrite with session.
  rewrite slice_last_length, length_app, entries_two. reflexivity.
Qed.

Lemma recorder_evicts_oldest (question answer : str) (s : State) :
  exists evicted,
    conversation_history s ++ entries (clock env (log s)) question answer
      = evicted ++ conversation_history (snd (add question answer s)).
Proof.
  rewrite add_run. cbn [snd]. autorewrite with session.
  eexists. symmetry. apply slice_last_suffix.
Qed.

Lemma recorder_keeps_new_entries (question answer : str) (s : State) :
  conversation_history (snd (add question answer s))
    = slice_last 18 (conversation_history s)
        ++ entries (clock env (log s)) question answer.
Proof.
  rewrite add_run. cbn [snd]. autorewrite with session.
  unfold slice_last. rewrite length_app, entries_two, skipn_app.
  replace (length (conversation_history s) + 2 - 20)
    with (length (conversation_history s) - 18) by lia.
  replace (length (conversation_history s) - 18
             - length (conversation_history s)) with 0 by lia.
  reflexivity.
Qed.

Lemma run_exchanges_snoc (record : str -> str -> M unit)
    (exchanges : list (str * str)) (question answer : str) (s : State) :
  run_exchanges record (exchanges ++ [(question, answer)]) s
    = snd (record question answer (run_exchanges record exchanges s)).
Proof.
  unfold run_exchanges. rewrite fold_left_app. reflexivity.
Qed.

Lemma run_exchanges_capped (exchanges : list (str * str))
    (question answer : str) (s : State) :
  length (conversation_history
            (run_exchanges add (exchanges ++ [(question, answer)]) s)) <= 20.
Proof.
  rewrite run_exchanges_snoc, recorder_length. lia.
Qed.

(** The capped history is the end of the uncapped one, as long as the two
    runs see the same requests. *)
Lemma run_exchanges_refines (exchanges : list (str * str)) :
  forall s1 s2,
    log s1 = log s2 ->
    conversation_history s1 = slice_last 20 (conversation_history s2) ->
    conversation_history (run_exchanges add exchanges s1)
      = slice_last 20
          (conversation_history (run_exchanges add_unbounded exchanges s2)).
Proof.
  induction exchanges as [| [question answer] rest IH]; intros s1 s2 Hlog Hh.
  - exact Hh.
  - cbn [run_exchanges fold_left fst snd].
    apply IH; rewrite add_run, add_unbounded_run; cbn [snd];
      autorewrite with session.
    + rewrite Hlog. reflexivity.
    + rewrite Hh, Hlog. apply slice_last_app_slice_last.
Qed.

Lemma run_exchanges_from_empty (exchanges : list (str * str)) (s : State) :
  conversation_history (run_exchanges add exchanges (with_history [] s))
    = slice_last 20
        (conversation_history
           (run_exchanges add_unbounded exchanges (with_history [] s))).
Proof.
  apply run_exchanges_refines; reflexivity.
Qed.
End Recorder.

(** ** The session with history *)

Module AdvancedFacts.
Import Advanced.

Section Facts.
Variable env : Env.

Lemma advanced_search_with_error_handling_run (question : str) (s : State) :
  search_with_error_handling env question s
    = (Ok (answer_or (lit "Search unavailable: ")
             (lit ". Using general knowledge only.")
             (respond env (log s) (search_run question))),
       record_request (search_run question) s).
Proof.
  unfold search_with_error_handling, try_except, bind, call.
  destruct (respond env (log s) _); reflexivity.
Qed.

Lemma advanced_add_to_history_run (question answer : str) (s : State) :
  add_to_history env question answer s
    = (Ok tt,
       with_history
         (slice_last 20
            (conversation_history s
               ++ [lit "[" ++ strftime_HM (clock env (log s)) ++ lit "] "
                     ++ question;
                   lit "[" ++ strftime_HM (clock env (log s)) ++ lit "] "
                     ++ answer]))
         (record_request datetime_now s)).
Proof.
  unfold add_to_history. run. autorewrite with session.
  destruct (Nat.ltb_spec 20
              (length
                 (conversation_history s
                    ++ [lit "[" ++ strftime_HM (clock env (log s)) ++ lit "] "
                          ++ question;
                        lit "[" ++ strftime_HM (clock env (log s)) ++ lit "] "
                          ++ answer])))
    as [Hlong | Hshort].
  - reflexivity.
  - rewrite (slice_last_all 20 _ Hshort). reflexivity.
Qed.

Lemma advanced_add_to_history_unbounded_run (question answer : str) (s : State) :
  add_to_history_unbounded env question answer s
    = (Ok tt,
       with_history
         (conversation_history s
            ++ [lit "[" ++ strftime_HM (clock env (log s)) ++ lit "] "
                  ++ question;
                lit "[" ++ strftime_HM (clock env (log s)) ++ lit "] "
                  ++ answer])
         (record_request datetime_now s)).
Proof. reflexivity. Qed.

(** The index loop of [format_history] pairs the entries two by two. *)
Lemma format_pairs_format_exchanges (recent_history : list str) :
  format_pairs recent_history = format_exchanges recent_history.
Proof.
  unfold format_pairs.
  rewrite (fold_left_guarded_append
             (fun i => i + 1 <? length recent_history)
             (fun i => exchange_block (nth i recent_history [])
                         (nth (i + 1) recent_history []))).
  cbn [app].
  induction recent_history as [| x | q a rest IH] using list_pair_ind.
  - reflexivity.
  - reflexivity.
  - cbn [length]. rewrite range_by_2_step. cbn [flat_map].
    rewrite flat_map_map.
    match goal with
    | |- _ ++ ?tail = _ =>
        enough (Htail : tail = format_exchanges rest)
          by (rewrite Htail; reflexivity)
    end.
    rewrite <- IH. apply flat_map_ext. intros i.
    replace (S (S i) + 1) with (S (S (i + 1))) by lia.
    reflexivity.
Qed.

Lemma format_pairs_entries_of (exchanges : list (str * str)) :
  format_pairs (entries_of exchanges)
    = map (fun qa => exchange_block (fst qa) (snd qa)) exchanges.
Proof.
  rewrite format_pairs_format_exchanges.
  induction exchanges as [| qa rest IH]; cbn; [reflexivity|].
  unfold entries_of in IH. rewrite IH. reflexivity.
Qed.

Lemma format_history_run (s : State) :
  format_history s
    = (Ok (match conversation_history s with
           | [] => lit "No previous conversation."
           | _ :: _ =>
               join (nl ++ nl)
                 (format_pairs (slice_last 6 (conversation_history s)))
           end), s).
Proof.
  unfold format_history. run.
  destruct (conversation_history s); reflexivity.
Qed.

Lemma advanced_save_conversation_run (filename : str) (s : State) :
  let document :=
    [(lit "timestamp", JString (isoformat (clock env (log s))));
     (lit "history", JList (conversation_history s))] in
  save_conversation env filename s
    = (Ok tt,
       printed
         (match respond env (log s ++ [datetime_now])
                  (json_dump_file filename document) with
          | Returns _ =>
              uni 128190 ++ lit " Conversation saved to " ++ filename
          | Raises e =>
              uni 10060 ++ lit " Could not save conversation: "
                ++ exception_str e
          end)
         (record_request (json_dump_file filename document)
            (record_request datetime_now s))).
Proof.
  intros document. unfold save_conversation. run.
  unfold try_except, bind, call. autorewrite with session.
  fold document. destruct (respond env _ _); reflexivity.
Qed.

Lemma chain_invoke_question_history (question : str) (s : State) :
  conversation_history (snd (chain_invoke_question env question s))
    = conversation_history s.
Proof.
  unfold chain_invoke_question.
  erewrite bind_ok by apply advanced_search_with_error_handling_run. run.
  erewrite bind_ok by apply format_history_run. run.
  unfold call. destruct (respond env _ _); reflexivity.
Qed.

(** A turn of the loop leaves the history as it was, empties it, or
    records one exchange. *)
Lemma run_command_history (c : command) (s : State) :
  conversation_history (snd (run_command env c s)) = conversation_history s
  \/ conversation_history (snd (run_command env c s)) = []
  \/ exists e1 e2,
       conversation_history (snd (run_command env c s))
         = slice_last 20 (conversation_history s ++ [e1; e2]).
Proof.
  unfold run_command. destruct c as [| | | | user_question].
  - left. reflexivity.
  - left. erewrite try_except_ok.
    2:{ erewrite bind_ok by apply advanced_save_conversation_run. reflexivity. }
    reflexivity.
  - right; left. reflexivity.
  - left. reflexivity.
  - pose proof (chain_invoke_question_history user_question
                  (printed (uni 129302 ++ lit " Searching and thinking...") s))
      as Hh.
    destruct (chain_invoke_question env user_question
                (printed (uni 129302 ++ lit " Searching and thinking...") s))
      as [[response | e] s1] eqn:Hc; cbn [snd] in Hh;
      autorewrite with session in Hh.
    + right; right. erewrite try_except_ok.
      2:{ run. erewrite bind_ok by exact Hc. run.
          erewrite bind_ok by apply advanced_add_to_history_run. run.
          reflexivity. }
      cbn [snd]. autorewrite with session. rewrite Hh.
      eexists; eexists; reflexivity.
    + left. erewrite try_except_err.
      2:{ run. erewrite bind_err by exact Hc. reflexivity. }
      cbn. exact Hh.
Qed.

(** A history made of at most ten whole exchanges. *)
Lemma reachable_whole_exchanges (s : State) :
  reachable env s ->
  exists exchanges,
    conversation_history s = entries_of exchanges /\ length exchanges <= 10.
Proof.
  induction 1 as [s Hempty | s c Hs (exchanges & Hh & Hlen)].
  - exists []. rewrite Hempty. split; [reflexivity | cbn; lia].
  - destruct (run_command_history c s) as [Hsame | [Hclear | (e1 & e2 & Hadd)]].
    + exists exchanges. rewrite Hsame. split; assumption.
    + exists []. rewrite Hclear. split; [reflexivity | cbn; lia].
    + exists (slice_last 10 (exchanges ++ [(e1, e2)])).
      rewrite Hadd, Hh. split.
      * change 20 with (2 * 10). rewrite <- slice_last_entries_of.
        unfold entries_of. rewrite flat_map_app. reflexivity.
      * rewrite slice_last_length. lia.
Qed.

(** What [format_history] builds from entries is empty or starts with the
    [Q] of its first block. *)
Lemma join_format_exchanges_head (entries : list str) :
  join (nl ++ nl) (format_exchanges entries) = []
  \/ exists rest, join (nl ++ nl) (format_exchanges entries) = 81%N :: rest.
Proof.
  destruct entries as [| q [| a rest]]; [left; reflexivity ..|].
  right. cbn [format_exchanges join].
  destruct (format_exchanges rest); eexists; reflexivity.
Qed.

(** C6. [format_history] returns ["No previous conversation."] exactly
    when the history is empty, in every state, reachable or not. *)
Theorem format_history_empty_iff (s : State) :
  fst (format_history s) = Ok (lit "No previous conversation.")
  <-> conversation_history s = [].
Proof.
  rewrite format_history_run. cbn [fst]. split.
  - destruct (conversation_history s) as [| e h] eqn:Hh; [reflexivity|].
    intros Hsame. exfalso. apply Ok_inj in Hsame.
    rewrite format_pairs_format_exchanges in Hsame.
    destruct (join_format_exchanges_head (slice_last 6 (e :: h)))
      as [Hnil | [rest Hq]].
    + rewrite Hnil in Hsame. discriminate Hsame.
    + rewrite Hq in Hsame. discriminate Hsame.
  - intros ->. reflexivity.
Qed.

(** C7. In a reachable state with a history, the history is a sequence of
    whole exchanges and [format_history] renders the last three of them
    (all of them when there are fewer), each as ["Q: " + question entry +
    "\nA: " + first 200 characters of the answer entry + "..."], joined
    by a blank line. *)
Theorem format_history_last_three (s : State) :
  reachable env s ->
  conversation_history s <> [] ->
  exists exchanges,
    conversation_history s = entries_of exchanges
    /\ fst (format_history s)
       = Ok (join [10; 10]%N
               (map (fun qa =>
                       lit "Q: " ++ fst qa ++ [10]%N ++ lit "A: "
                         ++ firstn 200 (snd qa) ++ lit "...")
                  (slice_last (Nat.min 3 (length exchanges)) exchanges))).
Proof.
  intros Hreach Hnonempty.
  destruct (reachable_whole_exchanges s Hreach) as (exchanges & Hh & _).
  exists exchanges. split; [exact Hh|].
  rewrite format_history_run. cbn [fst].
  destruct (conversation_history s) as [| e h]; [contradiction|].
  rewrite Hh. change 6 with (2 * 3).
  rewrite slice_last_entries_of, format_pairs_entries_of.
  replace (slice_last (Nat.min 3 (length exchanges)) exchanges)
    with (slice_last 3 exchanges)
    by (unfold slice_last; f_equal; lia).
  reflexivity.
Qed.
End Facts.

(** After one question in the Paris world the history holds one exchange. *)
Lemma format_history_last_three_witness :
  let s := snd (run_command paris_env (Question the_question) fresh) in
  conversation_history s <> []
  /\ exists exchanges,
       conversation_history s = entries_of exchanges
       /\ fst (format_history s)
          = Ok (join [10; 10]%N
                  (map (fun qa =>
                          lit "Q: " ++ fst qa ++ [10]%N ++ lit "A: "
                            ++ firstn 200 (snd qa) ++ lit "...")
                     (slice_last (Nat.min 3 (length exchanges)) exchanges))).
Proof.
  intros s.
  assert (Hnonempty : conversation_history s <> [])
    by (vm_compute; discriminate).
  split; [exact Hnonempty|].
  apply (format_history_last_three paris_env s).
  - apply reachable_step, reachable_init. reflexivity.
  - exact Hnonempty.
Defined.

Example format_history_one_exchange :
  fst (format_history
         (snd (run_command paris_env (Question the_question) fresh)))
  = Ok (lit "Q: [12:00] capital of France" ++ [10]%N
          ++ lit "A: [12:00] Paris....").
Proof. reflexivity. Qed.

(** With four exchanges stored, the oldest is not rendered. *)
Example format_history_four_exchanges :
  fst (format_history
         (with_history
            (entries_of [(lit "q1", lit "a1"); (lit "q2", lit "a2");
                         (lit "q3", lit "a3"); (lit "q4", lit "a4")])
            fresh))
  = Ok (lit "Q: q2" ++ [10]%N ++ lit "A: a2..." ++ [10; 10]%N
          ++ lit "Q: q3" ++ [10]%N ++ lit "A: a3..." ++ [10; 10]%N
          ++ lit "Q: q4" ++ [10]%N ++ lit "A: a4...").
Proof. reflexivity. Qed.

Example format_history_fresh :
  fst (format_history fresh) = Ok (lit "No previous conversation.").
Proof. reflexivity. Qed.
End AdvancedFacts.

(** ** The dual-model session *)

Module DualFacts.
Import Dual.

Section Facts.
Variable env : Env.
Variable isspace : char -> bool.
Variable toupper_full : char -> list char.

(** C1. [determine_model_strategy] always returns, and returns one of the
    four labels: the coordinator's output stripped and upper-cased when that
    is a label, and ["GPT"] when it is not a label or when the coordinator
    raises. *)
Theorem determine_model_strategy_four_valued (question context : str) (s : State) :
  exists strategy s',
    determine_model_strategy env isspace toupper_full question context s
      = (Ok strategy, s')
    /\ In strategy [lit "QWEN"; lit "GPT"; lit "BOTH"; lit "QWEN_THEN_GPT"]
    /\ match respond env (log s) (coordinator_request question context) with
       | Returns raw =>
           let normalized := upper toupper_full (strip isspace raw) in
           (In normalized
               [lit "QWEN"; lit "GPT"; lit "BOTH"; lit "QWEN_THEN_GPT"]
             -> strategy = normalized)
           /\ (~ In normalized
                  [lit "QWEN"; lit "GPT"; lit "BOTH"; lit "QWEN_THEN_GPT"]
               -> strategy = lit "GPT")
       | Raises _ => strategy = lit "GPT"
       end.
Proof.
  unfold determine_model_strategy, coordinator_request, try_except, bind, call.
  destruct (respond env (log s) _) as [raw | e]; cbn [ret print].
  - destruct (str_in (upper toupper_full (strip isspace raw)) strategies)
      eqn:Hin; cbn [negb].
    + apply str_in_true in Hin.
      eexists; eexists; split; [reflexivity|].
      split; [exact Hin|]. split; [reflexivity|]. intros Hn; contradiction.
    + apply str_in_false in Hin.
      eexists; eexists; split; [reflexivity|].
      split; [right; left; reflexivity|].
      split; [intros Hy; contradiction | reflexivity].
  - eexists; eexists; split; [reflexivity|].
    split; [right; left; reflexivity | reflexivity].
Qed.

Lemma get_qwen_response_run (question context : str) (s : State) :
  get_qwen_response env question context s
    = (Ok (answer_or (lit "Qwen model error: ") []
             (respond env (log s) (qwen_request question context))),
       record_request (qwen_request question context) s).
Proof.
  unfold get_qwen_response, try_except, call, answer_or.
  destruct (respond env (log s) _); cbn [ret]; rewrite ?app_nil_r; reflexivity.
Qed.

Lemma get_gpt_response_run (question context : str) (s : State) :
  get_gpt_response env question context s
    = (Ok (answer_or (lit "GPT model error: ") []
             (respond env (log s) (gpt_request question context))),
       record_request (gpt_request question context) s).
Proof.
  unfold get_gpt_response, try_except, call, answer_or.
  destruct (respond env (log s) _); cbn [ret]; rewrite ?app_nil_r; reflexivity.
Qed.

Lemma combine_responses_run (question context qwen_response gpt_response : str)
    (s : State) :
  combine_responses env question context qwen_response gpt_response s
    = (Ok (match respond env (log s)
                   (combination_request question context
                      qwen_response gpt_response) with
           | Returns v => v
           | Raises _ =>
               lit "**Combined Response:**" ++ nl ++ nl
                 ++ lit "**Qwen3-VL:** " ++ qwen_response ++ nl ++ nl
                 ++ lit "**GPT-OSS:** " ++ gpt_response
           end),
       record_request
         (combination_request question context qwen_response gpt_response) s).
Proof.
  unfold combine_responses, try_except, call.
  destruct (respond env (log s) _); reflexivity.
Qed.

Lemma dual_search_with_error_handling_run (question : str) (s : State) :
  search_with_error_handling env question s
    = (Ok (answer_or (lit "Search unavailable: ")
             (lit ". Using model knowledge only.")
             (respond env (log s) (search_run question))),
       record_request (search_run question) s).
Proof.
  unfold search_with_error_handling, try_except, bind, call.
  destruct (respond env (log s) _); reflexivity.
Qed.

(** The label [determine_model_strategy] settles on for an outcome of the
    coordinator's call. *)
Lemma determine_model_strategy_run (question context : str) (s : State) :
  exists s',
    determine_model_strategy env isspace toupper_full question context s
      = (Ok (match respond env (log s)
                     (coordinator_request question context) with
             | Returns raw =>
                 if str_in (upper toupper_full (strip isspace raw)) strategies
                 then upper toupper_full (strip isspace raw)
                 else lit "GPT"
             | Raises _ => lit "GPT"
             end), s')
    /\ log s' = log s ++ [coordinator_request question context]
    /\ conversation_history s' = conversation_history s.
Proof.
  unfold determine_model_strategy, try_except, bind, call.
  destruct (respond env (log s) _) as [raw | e]; cbn [ret print].
  - destruct (str_in _ strategies); cbn [negb];
      (eexists; split; [reflexivity | split; reflexivity]).
  - eexists; split; [reflexivity | split; reflexivity].
Qed.

(** The two entries an exchange adds to the history at time [d]. *)
Lemma dual_add_to_history_run (question answer : str) (s : State) :
  add_to_history env question answer s
    = (Ok tt,
       with_history
         (slice_last 20
            (conversation_history s
               ++ [lit "[" ++ strftime_HM (clock env (log s)) ++ lit "] "
                     ++ question;
                   lit "[" ++ strftime_HM (clock env (log s)) ++ lit "] "
                     ++ firstn 300 answer ++ lit "..."]))
         (record_request datetime_now s)).
Proof.
  unfold add_to_history. run. autorewrite with session.
  destruct (Nat.ltb_spec 20
              (length
                 (conversation_history s
                    ++ [lit "[" ++ strftime_HM (clock env (log s)) ++ lit "] "
                          ++ question;
                        lit "[" ++ strftime_HM (clock env (log s)) ++ lit "] "
                          ++ slice_to 300 answer ++ lit "..."])))
    as [Hlong | Hshort].
  - reflexivity.
  - unfold slice_to in *. rewrite (slice_last_all 20 _ Hshort). reflexivity.
Qed.

Lemma dual_add_to_history_unbounded_run (question answer : str) (s : State) :
  add_to_history_unbounded env question answer s
    = (Ok tt,
       with_history
         (conversation_history s
            ++ [lit "[" ++ strftime_HM (clock env (log s)) ++ lit "] "
                  ++ question;
                lit "[" ++ strftime_HM (clock env (log s)) ++ lit "] "
                  ++ firstn 300 answer ++ lit "..."])
         (record_request datetime_now s)).
Proof. reflexivity. Qed.

Lemma dual_save_conversation_run (filename : str) (s : State) :
  let document :=
    [(lit "timestamp", JString (isoformat (clock env (log s))));
     (lit "models_used",
      JList [lit "qwen3-vl:235b-cloud"; lit "gpt-oss:120b-cloud"]);
     (lit "history", JList (conversation_history s))] in
  save_conversation env filename s
    = (Ok tt,
       printed
         (match respond env (log s ++ [datetime_now])
                  (json_dump_file filename document) with
          | Returns _ =>
              uni 128190 ++ lit " Conversation saved to " ++ filename
          | Raises e =>
              uni 10060 ++ lit " Could not save conversation: "
                ++ exception_str e
          end)
         (record_request (json_dump_file filename document)
            (record_request datetime_now s))).
Proof.
  intros document. unfold save_conversation. run.
  unfold try_except, bind, call. autorewrite with session.
  fold document. destruct (respond env _ _); reflexivity.
Qed.

(** The sequential branch, step by step: two lines are printed, Qwen is
    asked with the search context, and GPT with the refined one. *)
Lemma answer_with_strategy_sequential (question context : str) (s : State) :
  let responseA :=
    answer_or (lit "Qwen model error: ") []
      (respond env (log s) (qwen_request question context)) in
  let refined :=
    lit "Previous analysis: " ++ responseA ++ [10; 10]%N
      ++ lit "Original context: " ++ context in
  let response :=
    answer_or (lit "GPT model error: ") []
      (respond env (log s ++ [qwen_request question context])
         (gpt_request question refined)) in
  exists s',
    answer_with_strategy env (lit "QWEN_THEN_GPT") question context s
      = (Ok ((lit "**Models Used:** Qwen3-VL " ++ [8594]%N
                ++ lit " GPT-OSS (Sequential)") ++ [10; 10]%N ++ response),
         s')
    /\ log s' = (log s ++ [qwen_request question context])
                  ++ [gpt_request question refined]
    /\ conversation_history s' = conversation_history s.
Proof.
  intros responseA refined response. eexists.
  unfold answer_with_strategy.
  destruct (str_eq_dec (lit "QWEN_THEN_GPT") (lit "QWEN")) as [H | _];
    [discriminate H|].
  destruct (str_eq_dec (lit "QWEN_THEN_GPT") (lit "GPT")) as [H | _];
    [discriminate H|].
  destruct (str_eq_dec (lit "QWEN_THEN_GPT") (lit "BOTH")) as [H | _];
    [discriminate H|].
  destruct (str_eq_dec (lit "QWEN_THEN_GPT") (lit "QWEN_THEN_GPT"))
    as [_ | H]; [|contradiction H; reflexivity].
  run.
  erewrite bind_ok by apply get_qwen_response_run. run.
  erewrite bind_ok by apply get_gpt_response_run. run.
  split; [reflexivity | split; reflexivity].
Qed.

Lemma answer_with_strategy_qwen (question context : str) (s : State) :
  exists s',
    answer_with_strategy env (lit "QWEN") question context s
      = (Ok (lit "**Model Used:** Qwen3-VL" ++ [10; 10]%N
               ++ answer_or (lit "Qwen model error: ") []
                    (respond env (log s) (qwen_request question context))),
         s')
    /\ conversation_history s' = conversation_history s.
Proof.
  eexists. unfold answer_with_strategy.
  destruct (str_eq_dec (lit "QWEN") (lit "QWEN")) as [_ | H];
    [|contradiction H; reflexivity].
  run. erewrite bind_ok by apply get_qwen_response_run. run.
  split; reflexivity.
Qed.

Lemma answer_with_strategy_gpt (question context : str) (s : State) :
  exists s',
    answer_with_strategy env (lit "GPT") question context s
      = (Ok (lit "**Model Used:** GPT-OSS" ++ [10; 10]%N
               ++ answer_or (lit "GPT model error: ") []
                    (respond env (log s) (gpt_request question context))),
         s')
    /\ conversation_history s' = conversation_history s.
Proof.
  eexists. unfold answer_with_strategy.
  destruct (str_eq_dec (lit "GPT") (lit "QWEN")) as [H | _];
    [discriminate H|].
  destruct (str_eq_dec (lit "GPT") (lit "GPT")) as [_ | H];
    [|contradiction H; reflexivity].
  run. erewrite bind_ok by apply get_gpt_response_run. run.
  split; reflexivity.
Qed.

Lemma answer_with_strategy_both (question context : str) (s : State) :
  exists response s',
    answer_with_strategy env (lit "BOTH") question context s
      = (Ok (lit "**Models Used:** Qwen3-VL + GPT-OSS (Combined)"
               ++ [10; 10]%N ++ response),
         s')
    /\ conversation_history s' = conversation_history s.
Proof.
  eexists. eexists. unfold answer_with_strategy.
  destruct (str_eq_dec (lit "BOTH") (lit "QWEN")) as [H | _];
    [discriminate H|].
  destruct (str_eq_dec (lit "BOTH") (lit "GPT")) as [H | _];
    [discriminate H|].
  destruct (str_eq_dec (lit "BOTH") (lit "BOTH")) as [_ | H];
    [|contradiction H; reflexivity].
  run. erewrite bind_ok by apply get_qwen_response_run. run.
  erewrite bind_ok by apply get_gpt_response_run. run.
  erewrite bind_ok by apply combine_responses_run. run.
  split; reflexivity.
Qed.

(** Outside the four labels no branch is taken and the [return] fails on
    its first unbound local. *)
Lemma answer_with_strategy_unbound (strategy question context : str)
    (s : State) :
  ~ In strategy strategies ->
  answer_with_strategy env strategy question context s
    = (Err (UnboundLocalError (lit "model_info")), s).
Proof.
  intros Hout. unfold answer_with_strategy.
  repeat match goal with
         | |- context [str_eq_dec strategy ?l] =>
             destruct (str_eq_dec strategy l) as [-> | _];
             [exfalso; apply Hout; unfold strategies; simpl; tauto|]
         end.
  reflexivity.
Qed.

(** Every label has its branch. *)
Lemma answer_with_strategy_defined (strategy question context : str)
    (s : State) :
  In strategy strategies ->
  exists model_info response s',
    answer_with_strategy env strategy question context s
      = (Ok (model_info ++ [10; 10]%N ++ response), s')
    /\ In model_info
         [lit "**Model Used:** Qwen3-VL";
          lit "**Model Used:** GPT-OSS";
          lit "**Models Used:** Qwen3-VL + GPT-OSS (Combined)";
          lit "**Models Used:** Qwen3-VL " ++ [8594]%N
            ++ lit " GPT-OSS (Sequential)"]
    /\ conversation_history s' = conversation_history s.
Proof.
  intros [<- | [<- | [<- | [<- | []]]]].
  - destruct (answer_with_strategy_qwen question context s) as (s' & Hrun & Hh).
    do 3 eexists. split; [exact Hrun|]. split; [simpl; tauto | exact Hh].
  - destruct (answer_with_strategy_gpt question context s) as (s' & Hrun & Hh).
    do 3 eexists. split; [exact Hrun|]. split; [simpl; tauto | exact Hh].
  - destruct (answer_with_strategy_both question context s)
      as (response & s' & Hrun & Hh).
    do 3 eexists. split; [exact Hrun|]. split; [simpl; tauto | exact Hh].
  - destruct (answer_with_strategy_sequential question context s)
      as (s' & Hrun & _ & Hh).
    do 3 eexists. split; [exact Hrun|]. split; [simpl; tauto | exact Hh].
Qed.

(** C2. When the combiner's call raises, [combine_responses] returns the
    fixed template around the two responses, the Qwen section first. *)
Theorem combine_responses_fallback
    (question context qwen_response gpt_response : str) (s : State)
    (e : exception) :
  respond env (log s)
    (chain_invoke combination_chain
       [(lit "question", question);
        (lit "context", context);
        (lit "qwen_response", qwen_response);
        (lit "gpt_response", gpt_response)]) = Raises e ->
  fst (combine_responses env question context qwen_response gpt_response s)
    = Ok (lit "**Combined Response:**" ++ [10; 10]%N
            ++ lit "**Qwen3-VL:** " ++ qwen_response ++ [10; 10]%N
            ++ lit "**GPT-OSS:** " ++ gpt_response).
Proof.
  intros Hfail. rewrite combine_responses_run.
  unfold combination_request. rewrite Hfail. reflexivity.
Qed.

Lemma answer_or_no_suffix (prefix : str) (o : outcome) :
  answer_or prefix [] o
    = match o with
      | Returns response => response
      | Raises failure => prefix ++ exception_str failure
      end.
Proof.
  destruct o; cbn [answer_or]; rewrite ?app_nil_r; reflexivity.
Qed.

(** C3. When the coordinator's answer normalizes to [QWEN_THEN_GPT],
    [process_question] asks Qwen with the search context and then GPT with
    the context ["Previous analysis: " + responseA + "\n\nOriginal
    context: " + context]. Here [context] is what
    [search_with_error_handling] returned, and [responseA] is the answer
    of the Qwen chain to that request (the text ["Qwen model error: " +
    cause] when the chain raises), which is what [get_qwen_response]
    returned. *)
Theorem sequential_strategy_refined_context
    (question : str) (s : State) (raw : str) :
  let context :=
    match respond env (log s) (search_run question) with
    | Returns results => results
    | Raises failure =>
        lit "Search unavailable: " ++ exception_str failure
          ++ lit ". Using model knowledge only."
    end in
  let coordinating :=
    chain_invoke coordinator_chain
      [(lit "question", question); (lit "context", context)] in
  let asking_qwen :=
    chain_invoke qwen_chain
      [(lit "question", question); (lit "context", context)] in
  let asked := log s ++ [search_run question; coordinating] in
  let responseA :=
    match respond env asked asking_qwen with
    | Returns response => response
    | Raises failure => lit "Qwen model error: " ++ exception_str failure
    end in
  let asking_gpt :=
    chain_invoke gpt_chain
      [(lit "question", question);
       (lit "context",
        lit "Previous analysis: " ++ responseA ++ [10; 10]%N
          ++ lit "Original context: " ++ context)] in
  respond env (log s ++ [search_run question]) coordinating = Returns raw ->
  upper toupper_full (strip isspace raw) = lit "QWEN_THEN_GPT" ->
  exists s',
    (forall s0, log s0 = log s ->
       fst (search_with_error_handling env question s0) = Ok context)
    /\ (forall s0, log s0 = asked ->
          fst (get_qwen_response env question context s0) = Ok responseA)
    /\ process_question env isspace toupper_full question s
       = (Ok ((lit "**Models Used:** Qwen3-VL " ++ [8594]%N
                 ++ lit " GPT-OSS (Sequential)") ++ [10; 10]%N
                ++ match respond env (asked ++ [asking_qwen]) asking_gpt with
                   | Returns response => response
                   | Raises failure =>
                       lit "GPT model error: " ++ exception_str failure
                   end), s')
    /\ log s' = asked ++ [asking_qwen; asking_gpt].
Proof.
  intros context coordinating asking_qwen asked responseA asking_gpt
    Hraw Hlabel.
  unfold process_question. run.
  erewrite bind_ok by apply dual_search_with_error_handling_run. run.
  autorewrite with session.
  change (answer_or (lit "Search unavailable: ")
            (lit ". Using model knowledge only.")
            (respond env (log s) (search_run question))) with context.
  match goal with
  | |- context [bind (determine_model_strategy _ _ _ _ _) _ ?st] =>
      destruct (determine_model_strategy_run question context st)
        as (s2 & Hrun & Hlog & _)
  end.
  autorewrite with session in Hrun, Hlog.
  unfold coordinator_request in Hrun, Hlog.
  fold coordinating in Hrun, Hlog. rewrite Hraw, Hlabel in Hrun.
  change (str_in (lit "QWEN_THEN_GPT") strategies) with true in Hrun.
  cbv iota in Hrun.
  erewrite bind_ok by exact Hrun. run.
  destruct (answer_with_strategy_sequential question context
              (printed (uni 128203 ++ lit " Strategy: " ++ lit "QWEN_THEN_GPT")
                 s2))
    as (s3 & Hanswer & Hlog3 & _).
  autorewrite with session in Hanswer, Hlog3.
  assert (Hasked : log s2 = asked).
  { rewrite Hlog. unfold asked. rewrite <- app_assoc. reflexivity. }
  rewrite Hasked in Hanswer, Hlog3.
  unfold qwen_request, gpt_request in Hanswer, Hlog3.
  fold asking_qwen in Hanswer, Hlog3.
  assert (HresponseA : answer_or (lit "Qwen model error: ") []
                         (respond env asked asking_qwen) = responseA)
    by apply answer_or_no_suffix.
  rewrite !HresponseA in Hanswer, Hlog3.
  fold asking_gpt in Hanswer, Hlog3.
  rewrite answer_or_no_suffix in Hanswer.
  exists s3. split.
  { intros s0 Hs0.
    rewrite dual_search_with_error_handling_run, Hs0. reflexivity. }
  split.
  { intros s0 Hs0. rewrite get_qwen_response_run, Hs0.
    rewrite answer_or_no_suffix. reflexivity. }
  split; [exact Hanswer|].
  rewrite Hlog3, <- app_assoc. reflexivity.
Qed.

(** The label a coordinator outcome leads to is one of the four. *)
Lemma settled_label_in_strategies (o : outcome) :
  In (match o with
      | Returns raw =>
          if str_in (upper toupper_full (strip isspace raw)) strategies
          then upper toupper_full (strip isspace raw)
          else lit "GPT"
      | Raises _ => lit "GPT"
      end) strategies.
Proof.
  destruct o as [raw | e].
  - destruct (str_in _ strategies) eqn:Hin.
    + apply str_in_true. exact Hin.
    + right; left; reflexivity.
  - right; left; reflexivity.
Qed.

(** C10. Each of the four labels has a branch in [process_question], so
    with the label [determine_model_strategy] returns the function always
    returns [model_info + "\n\n" + response]; a label outside the four
    would reach the [return] with [model_info] unbound. *)
Theorem process_question_always_answers (question : str) (s : State) :
  (forall strategy context s0,
      In strategy [lit "QWEN"; lit "GPT"; lit "BOTH"; lit "QWEN_THEN_GPT"] ->
      exists model_info response s',
        answer_with_strategy env strategy question context s0
          = (Ok (model_info ++ [10; 10]%N ++ response), s'))
  /\ (exists model_info response s',
        process_question env isspace toupper_full question s
          = (Ok (model_info ++ [10; 10]%N ++ response), s'))
  /\ (forall strategy context s0,
        ~ In strategy [lit "QWEN"; lit "GPT"; lit "BOTH"; lit "QWEN_THEN_GPT"] ->
        answer_with_strategy env strategy question context s0
          = (Err (UnboundLocalError (lit "model_info")), s0)).
Proof.
  split; [|split].
  - intros strategy context s0 Hin.
    destruct (answer_with_strategy_defined strategy question context s0 Hin)
      as (model_info & response & s' & Hrun & _).
    eauto.
  - unfold process_question. run.
    erewrite bind_ok by apply dual_search_with_error_handling_run. run.
    match goal with
    | |- context [bind (determine_model_strategy _ _ _ _ ?c) _ ?st] =>
        destruct (determine_model_strategy_run question c st)
          as (s2 & Hrun & _)
    end.
    erewrite bind_ok by exact Hrun. run.
    match goal with
    | |- context [answer_with_strategy _ ?l _ ?c ?st] =>
        destruct (answer_with_strategy_defined l question c st
                    (settled_label_in_strategies _))
          as (model_info & response & s' & Hanswer & _)
    end.
    eauto.
  - intros strategy context s0 Hout.
    apply answer_with_strategy_unbound. exact Hout.
Qed.
End Facts.

(** The template on the two answers of the Paris scenario, character by
    character. *)
Example combine_responses_fallback_paris :
  fst (combine_responses paris_env the_question
         (lit "Paris is the capital of France.")
         (lit "Paris") (lit "The capital is Paris.") fresh)
  = Ok ([42; 42; 67; 111; 109; 98; 105; 110; 101; 100; 32; 82; 101; 115;
         112; 111; 110; 115; 101; 58; 42; 42; 10; 10;
         42; 42; 81; 119; 101; 110; 51; 45; 86; 76; 58; 42; 42; 32;
         80; 97; 114; 105; 115; 10; 10;
         42; 42; 71; 80; 84; 45; 79; 83; 83; 58; 42; 42; 32;
         84; 104; 101; 32; 99; 97; 112; 105; 116; 97; 108; 32; 105; 115;
         32; 80; 97; 114; 105; 115; 46]%N).
Proof. reflexivity. Qed.

Lemma combine_responses_fallback_witness :
  fst (combine_responses paris_env the_question
         (lit "Paris is the capital of France.")
         (lit "Paris") (lit "The capital is Paris.") fresh)
  = Ok (lit "**Combined Response:**" ++ [10; 10]%N
          ++ lit "**Qwen3-VL:** " ++ lit "Paris" ++ [10; 10]%N
          ++ lit "**GPT-OSS:** " ++ lit "The capital is Paris.").
Proof.
  apply (combine_responses_fallback paris_env the_question
           (lit "Paris is the capital of France.")
           (lit "Paris") (lit "The capital is Paris.") fresh
           (Exception (lit "timed out"))).
  reflexivity.
Defined.

(** The sequential strategy in a world without search: Qwen answers
    [Paris], and GPT is asked with that answer in front of the fallback
    context. *)
Lemma sequential_strategy_refined_context_witness :
  let context :=
    lit "Search unavailable: no network. Using model knowledge only." in
  let asked :=
    [search_run the_question;
     chain_invoke coordinator_chain
       [(lit "question", the_question); (lit "context", context)]] in
  upper ascii_toupper_full (strip ascii_isspace (lit "qwen_then_gpt"))
    = lit "QWEN_THEN_GPT"
  /\ exists s',
       (forall s0, log s0 = asked ->
          fst (get_qwen_response sequential_env the_question context s0)
            = Ok (lit "Paris"))
       /\ process_question sequential_env ascii_isspace ascii_toupper_full
            the_question fresh
          = (Ok ((lit "**Models Used:** Qwen3-VL " ++ [8594]%N
                    ++ lit " GPT-OSS (Sequential)") ++ [10; 10]%N
                   ++ lit "The capital is Paris."), s')
       /\ log s' =
            asked
            ++ [chain_invoke qwen_chain
                  [(lit "question", the_question); (lit "context", context)];
                chain_invoke gpt_chain
                  [(lit "question", the_question);
                   (lit "context",
                    lit "Previous analysis: Paris" ++ [10; 10]%N
                      ++ lit "Original context: " ++ context)]].
Proof.
  split; [reflexivity|].
  destruct (sequential_strategy_refined_context sequential_env
              ascii_isspace ascii_toupper_full the_question fresh
              (lit "qwen_then_gpt") eq_refl eq_refl)
    as (s' & _ & Hqwen & Hrun & Hlog).
  exists s'. split; [exact Hqwen|]. split; [exact Hrun | exact Hlog].
Defined.

(** The first scenario, end to end: the strategy is [BOTH], the combiner
    fails, and the answer is the template under the combined heading. *)
Example process_question_paris :
  fst (process_question paris_env ascii_isspace ascii_toupper_full
         the_question fresh)
  = Ok (lit "**Models Used:** Qwen3-VL + GPT-OSS (Combined)" ++ [10; 10]%N
          ++ lit "**Combined Response:**" ++ [10; 10]%N
          ++ lit "**Qwen3-VL:** Paris" ++ [10; 10]%N
          ++ lit "**GPT-OSS:** The capital is Paris.").
Proof. reflexivity. Qed.

(** An unrecognized coordinator answer resolves to GPT. *)
Example determine_model_strategy_maybe :
  fst (determine_model_strategy
         {| respond := fun _ _ => Returns (lit "MAYBE"); clock := fun _ => noon |}
         ascii_isspace ascii_toupper_full the_question [] fresh)
  = Ok (lit "GPT").
Proof. reflexivity. Qed.

Example determine_model_strategy_normalizes :
  fst (determine_model_strategy paris_env ascii_isspace ascii_toupper_full
         the_question [] fresh)
  = Ok (lit "BOTH").
Proof. reflexivity. Qed.
End DualFacts.

(** ** Both sessions *)

Section BothSessions.
Variable env : Env.

(** C8. [search_with_error_handling] always returns: the search results
    when the search returns, and ["Search unavailable: " + cause + ". Using
    model knowledge only."] (["general knowledge"] in the session with
    history) when the search raises. *)
Theorem search_with_error_handling_never_raises (question : str) (s : State) :
  Dual.search_with_error_handling env question s
    = (Ok (match respond env (log s) (search_run question) with
           | Returns results => results
           | Raises e =>
               lit "Search unavailable: " ++ exception_str e
                 ++ lit ". Using model knowledge only."
           end),
       record_request (search_run question) s)
  /\ Advanced.search_with_error_handling env question s
      = (Ok (match respond env (log s) (search_run question) with
             | Returns results => results
             | Raises e =>
                 lit "Search unavailable: " ++ exception_str e
                   ++ lit ". Using general knowledge only."
             end),
         record_request (search_run question) s).
Proof.
  split.
  - apply DualFacts.dual_search_with_error_handling_run.
  - apply AdvancedFacts.advanced_search_with_error_handling_run.
Qed.

(** C9. [save_conversation] always returns, leaves the history as it was,
    and reports the outcome of the write on the console: the failure, when
    the write raises. *)
Theorem save_conversation_keeps_history (filename : str) (s : State) :
  let dual_document :=
    [(lit "timestamp", JString (isoformat (clock env (log s))));
     (lit "models_used",
      JList [lit "qwen3-vl:235b-cloud"; lit "gpt-oss:120b-cloud"]);
     (lit "history", JList (conversation_history s))] in
  let advanced_document :=
    [(lit "timestamp", JString (isoformat (clock env (log s))));
     (lit "history", JList (conversation_history s))] in
  let report document :=
    match respond env (log s ++ [datetime_now])
            (json_dump_file filename document) with
    | Returns _ => [128190]%N ++ lit " Conversation saved to " ++ filename
    | Raises e =>
        [10060]%N ++ lit " Could not save conversation: " ++ exception_str e
    end in
  (exists s',
      Dual.save_conversation env filename s = (Ok tt, s')
      /\ conversation_history s' = conversation_history s
      /\ log s' = log s ++ [datetime_now; json_dump_file filename dual_document]
      /\ stdout s' = stdout s ++ [report dual_document])
  /\ (exists s',
        Advanced.save_conversation env filename s = (Ok tt, s')
        /\ conversation_history s' = conversation_history s
        /\ log s' =
             log s ++ [datetime_now; json_dump_file filename advanced_document]
        /\ stdout s' = stdout s ++ [report advanced_document]).
Proof.
  intros dual_document advanced_document report. split.
  - eexists. rewrite DualFacts.dual_save_conversation_run.
    split; [reflexivity|]. split; [reflexivity|].
    split; [cbn; rewrite <- app_assoc; reflexivity | reflexivity].
  - eexists. rewrite AdvancedFacts.advanced_save_conversation_run.
    split; [reflexivity|]. split; [reflexivity|].
    split; [cbn; rewrite <- app_assoc; reflexivity | reflexivity].
Qed.

(** C4. Recording an exchange always returns and leaves at most twenty
    entries: the history with the two new entries, less the oldest entries
    beyond twenty. After any run of recordings the history is the last
    twenty entries of what a recorder without the cap would hold. *)
Theorem add_to_history_keeps_last_20 :
  (forall question answer s,
      exists s' e1 e2 evicted,
        Dual.add_to_history env question answer s = (Ok tt, s')
        /\ length (conversation_history s') <= 20
        /\ length (conversation_history s')
           = Nat.min 20 (length (conversation_history s) + 2)
        /\ conversation_history s ++ [e1; e2]
           = evicted ++ conversation_history s')
  /\ (forall exchanges question answer s,
        length (conversation_history
                  (run_exchanges (Dual.add_to_history env)
                     (exchanges ++ [(question, answer)]) s)) <= 20)
  /\ (forall exchanges s,
        conversation_history
          (run_exchanges (Dual.add_to_history env) exchanges
             (with_history [] s))
        = slice_last 20
            (conversation_history
               (run_exchanges (Dual.add_to_history_unbounded env) exchanges
                  (with_history [] s))))
  /\ (forall question answer s,
        exists s' e1 e2 evicted,
          Advanced.add_to_history env question answer s = (Ok tt, s')
          /\ length (conversation_history s') <= 20
          /\ length (conversation_history s')
             = Nat.min 20 (length (conversation_history s) + 2)
          /\ conversation_history s ++ [e1; e2]
             = evicted ++ conversation_history s')
  /\ (forall exchanges question answer s,
        length (conversation_history
                  (run_exchanges (Advanced.add_to_history env)
                     (exchanges ++ [(question, answer)]) s)) <= 20)
  /\ (forall exchanges s,
        conversation_history
          (run_exchanges (Advanced.add_to_history env) exchanges
             (with_history [] s))
        = slice_last 20
            (conversation_history
               (run_exchanges (Advanced.add_to_history_unbounded env)
                  exchanges (with_history [] s)))).
Proof.
  pose (dual_entries := fun d question answer =>
          [lit "[" ++ strftime_HM d ++ lit "] " ++ question;
           lit "[" ++ strftime_HM d ++ lit "] " ++ firstn 300 answer
             ++ lit "..."]).
  pose (advanced_entries := fun d question answer =>
          [lit "[" ++ strftime_HM d ++ lit "] " ++ question;
           lit "[" ++ strftime_HM d ++ lit "] " ++ answer]).
  repeat split.
  - intros question answer s.
    pose proof (recorder_length env (Dual.add_to_history env) dual_entries
                  (DualFacts.dual_add_to_history_run env)
                  (fun _ _ _ => eq_refl) question answer s) as Hlen.
    destruct (recorder_evicts_oldest env (Dual.add_to_history env)
                dual_entries (DualFacts.dual_add_to_history_run env)
                question answer s) as [evicted Hev].
    rewrite DualFacts.dual_add_to_history_run in *. cbn [snd] in *.
    eexists. exists (hd [] (dual_entries (clock env (log s)) question answer)).
    exists (nth 1 (dual_entries (clock env (log s)) question answer) []).
    exists evicted.
    split; [reflexivity|]. split; [lia|]. split; [exact Hlen | exact Hev].
  - intros exchanges question answer s.
    apply (run_exchanges_capped env (Dual.add_to_history env) dual_entries
             (DualFacts.dual_add_to_history_run env) (fun _ _ _ => eq_refl)).
  - intros exchanges s.
    apply (run_exchanges_from_empty env (Dual.add_to_history env)
             (Dual.add_to_history_unbounded env) dual_entries
             (DualFacts.dual_add_to_history_run env)
             (DualFacts.dual_add_to_history_unbounded_run env)).
  - intros question answer s.
    pose proof (recorder_length env (Advanced.add_to_history env)
                  advanced_entries (AdvancedFacts.advanced_add_to_history_run env)
                  (fun _ _ _ => eq_refl) question answer s) as Hlen.
    destruct (recorder_evicts_oldest env (Advanced.add_to_history env)
                advanced_entries (AdvancedFacts.advanced_add_to_history_run env)
                question answer s) as [evicted Hev].
    rewrite AdvancedFacts.advanced_add_to_history_run in *. cbn [snd] in *.
    eexists.
    exists (hd [] (advanced_entries (clock env (log s)) question answer)).
    exists (nth 1 (advanced_entries (clock env (log s)) question answer) []).
    exists evicted.
    split; [reflexivity|]. split; [lia|]. split; [exact Hlen | exact Hev].
  - intros exchanges question answer s.
    apply (run_exchanges_capped env (Advanced.add_to_history env)
             advanced_entries (AdvancedFacts.advanced_add_to_history_run env)
             (fun _ _ _ => eq_refl)).
  - intros exchanges s.
    apply (run_exchanges_from_empty env (Advanced.add_to_history env)
             (Advanced.add_to_history_unbounded env) advanced_entries
             (AdvancedFacts.advanced_add_to_history_run env)
             (AdvancedFacts.advanced_add_to_history_unbounded_run env)).
Qed.

(** C5, as the code has it. The dual-model session stores the answer entry
    ["[HH:MM] " + first 300 characters of the answer + "..."], with the
    ellipsis whether or not anything was cut; the session with history
    stores ["[HH:MM] " + answer], whole and without ellipsis. In both the
    question entry and the answer entry are the last two of the history. *)
Theorem add_to_history_stored_entries (question answer : str) (s : State) :
  let timestamp := strftime_HM (clock env (log s)) in
  (exists kept,
      conversation_history (snd (Dual.add_to_history env question answer s))
      = kept ++ [lit "[" ++ timestamp ++ lit "] " ++ question;
                 lit "[" ++ timestamp ++ lit "] " ++ firstn 300 answer
                   ++ lit "..."])
  /\ (exists kept,
        conversation_history
          (snd (Advanced.add_to_history env question answer s))
        = kept ++ [lit "[" ++ timestamp ++ lit "] " ++ question;
                   lit "[" ++ timestamp ++ lit "] " ++ answer]).
Proof.
  intros timestamp. split.
  - eexists.
    apply (recorder_keeps_new_entries env (Dual.add_to_history env)
             (fun d question answer =>
                [lit "[" ++ strftime_HM d ++ lit "] " ++ question;
                 lit "[" ++ strftime_HM d ++ lit "] " ++ firstn 300 answer
                   ++ lit "..."])
             (DualFacts.dual_add_to_history_run env) (fun _ _ _ => eq_refl)).
  - eexists.
    apply (recorder_keeps_new_entries env (Advanced.add_to_history env)
             (fun d question answer =>
                [lit "[" ++ strftime_HM d ++ lit "] " ++ question;
                 lit "[" ++ strftime_HM d ++ lit "] " ++ answer])
             (AdvancedFacts.advanced_add_to_history_run env) (fun _ _ _ => eq_refl)).
Qed.
End BothSessions.

(** A short answer is stored with an ellipsis by the dual-model session,
    and an answer of 301 characters is stored whole, without ellipsis, by
    the session with history. *)
Lemma add_to_history_ellipsis_counterexample :
  let short := lit "Paris" in
  let long := repeat 120%N 301 in
  let dual_stored :=
    conversation_history
      (snd (Dual.add_to_history paris_env the_question short fresh)) in
  let advanced_stored :=
    conversation_history
      (snd (Advanced.add_to_history paris_env the_question long fresh)) in
  length short <= 300
  /\ dual_stored
     = [lit "[12:00] capital of France"; lit "[12:00] Paris..."]
  /\ dual_stored
     <> [lit "[12:00] capital of France"; lit "[12:00] Paris"]
  /\ 300 < length long
  /\ advanced_stored
     = [lit "[12:00] capital of France"; lit "[12:00] " ++ long]
  /\ advanced_stored
     <> [lit "[12:00] capital of France";
         lit "[12:00] " ++ firstn 300 long ++ lit "..."]
  /\ advanced_stored
     <> [lit "[12:00] capital of France";
         lit "[12:00] " ++ firstn 200 long ++ lit "..."].
Proof.
  cbv zeta.
  split; [vm_compute; lia|].
  split; [reflexivity|].
  split; [intros H; vm_compute in H; discriminate H|].
  split; [vm_compute; lia|].
  split; [reflexivity|].
  split; intros H; vm_compute in H; discriminate H.
Qed.

(** Twelve exchanges recorded in a fresh session leave the last ten. *)
Example run_exchanges_twelve :
  let exchanges :=
    map (fun n => ([N.of_nat (65 + n)], [N.of_nat (97 + n)])) (seq 0 12) in
  map (fun entry => nth 8 entry 0%N)
    (conversation_history
       (run_exchanges (Advanced.add_to_history paris_env) exchanges fresh))
  = lit "CcDdEeFfGgHhIiJjKkLl".
Proof. reflexivity. Qed.

(** * Further properties *)

(** ** Routing in the dual-model session *)

Module DualRouting.
Import Dual.

Section Facts.
Variable env : Env.
Variable isspace : char -> bool.
Variable toupper_full : char -> list char.

(** [determine_model_strategy] with its final state: a failure of the
    coordinator is printed as a warning. *)
Lemma determine_model_strategy_state (question context : str) (s : State) :
  determine_model_strategy env isspace toupper_full question context s
    = match respond env (log s) (coordinator_request question context) with
      | Returns raw =>
          (Ok (if str_in (upper toupper_full (strip isspace raw)) strategies
               then upper toupper_full (strip isspace raw)
               else lit "GPT"),
           record_request (coordinator_request question context) s)
      | Raises e =>
          (Ok (lit "GPT"),
           printed
             ([9888; 65039]%N ++ lit " Strategy determination failed: "
                ++ exception_str e)
             (record_request (coordinator_request question context) s))
      end.
Proof.
  unfold determine_model_strategy, try_except, bind, call.
  destruct (respond env (log s) _) as [raw | e]; cbn [ret print].
  - destruct (str_in _ strategies); reflexivity.
  - reflexivity.
Qed.

(** [process_question] up to its dispatch: the search and the coordinator
    have been asked, and the history is as it was. *)
Lemma process_question_dispatch (question : str) (s : State) :
  let context :=
    answer_or (lit "Search unavailable: ")
      (lit ". Using model knowledge only.")
      (respond env (log s) (search_run question)) in
  let asked := coordinator_request question context in
  exists strategy s2,
    process_question env isspace toupper_full question s
      = answer_with_strategy env strategy question context s2
    /\ strategy
       = match respond env (log s ++ [search_run question]) asked with
         | Returns raw =>
             if str_in (upper toupper_full (strip isspace raw)) strategies
             then upper toupper_full (strip isspace raw)
             else lit "GPT"
         | Raises _ => lit "GPT"
         end
    /\ log s2 = log s ++ [search_run question; asked]
    /\ conversation_history s2 = conversation_history s
    /\ stdout s2
       = stdout s
           ++ [[128269]%N ++ lit " Searching web...";
               [129302]%N ++ lit " Determining optimal model strategy..."]
           ++ match respond env (log s ++ [search_run question]) asked with
              | Returns _ => []
              | Raises e =>
                  [[9888; 65039]%N ++ lit " Strategy determination failed: "
                     ++ exception_str e]
              end
           ++ [[128203]%N ++ lit " Strategy: " ++ strategy].
Proof.
  intros context asked. unfold process_question. run.
  erewrite bind_ok by apply DualFacts.dual_search_with_error_handling_run.
  run. autorewrite with session. fold context.
  match goal with
  | |- context [bind (determine_model_strategy _ _ _ _ _) _ ?st] =>
      pose proof (determine_model_strategy_state question context st) as Hrun
  end.
  autorewrite with session in Hrun. fold asked in Hrun.
  destruct (respond env (log s ++ [search_run question]) asked) as [raw | e];
    (erewrite bind_ok by exact Hrun); run;
    (eexists; eexists; split; [reflexivity|]; split; [reflexivity|]);
    (split; [cbn; rewrite <- app_assoc; reflexivity|]);
    (split; [reflexivity|]); cbn; rewrite <- !app_assoc; reflexivity.
Qed.

Lemma answer_qwen_state (question context : str) (s : State) :
  answer_with_strategy env (lit "QWEN") question context s
    = (Ok (lit "**Model Used:** Qwen3-VL" ++ [10; 10]%N
             ++ answer_or (lit "Qwen model error: ") []
                  (respond env (log s) (qwen_request question context))),
       record_request (qwen_request question context)
         (printed ([128993]%N ++ lit " Using Qwen3-VL model...") s)).
Proof.
  unfold answer_with_strategy.
  destruct (str_eq_dec (lit "QWEN") (lit "QWEN")) as [_ | H];
    [|contradiction H; reflexivity].
  run. erewrite bind_ok by apply DualFacts.get_qwen_response_run. run.
  reflexivity.
Qed.

Lemma answer_gpt_state (question context : str) (s : State) :
  answer_with_strategy env (lit "GPT") question context s
    = (Ok (lit "**Model Used:** GPT-OSS" ++ [10; 10]%N
             ++ answer_or (lit "GPT model error: ") []
                  (respond env (log s) (gpt_request question context))),
       record_request (gpt_request question context)
         (printed ([128309]%N ++ lit " Using GPT-OSS model...") s)).
Proof.
  unfold answer_with_strategy.
  destruct (str_eq_dec (lit "GPT") (lit "QWEN")) as [H | _];
    [discriminate H|].
  destruct (str_eq_dec (lit "GPT") (lit "GPT")) as [_ | H];
    [|contradiction H; reflexivity].
  run. erewrite bind_ok by apply DualFacts.get_gpt_response_run. run.
  reflexivity.
Qed.

Lemma answer_both_state (question context : str) (s : State) :
  let qwen_response :=
    answer_or (lit "Qwen model error: ") []
      (respond env (log s) (qwen_request question context)) in
  let gpt_response :=
    answer_or (lit "GPT model error: ") []
      (respond env (log s ++ [qwen_request question context])
         (gpt_request question context)) in
  let combining :=
    combination_request question context qwen_response gpt_response in
  answer_with_strategy env (lit "BOTH") question context s
    = (Ok (lit "**Models Used:** Qwen3-VL + GPT-OSS (Combined)"
             ++ [10; 10]%N
             ++ match respond env
                        ((log s ++ [qwen_request question context])
                           ++ [gpt_request question context]) combining with
                | Returns combined => combined
                | Raises _ =>
                    lit "**Combined Response:**" ++ [10; 10]%N
                      ++ lit "**Qwen3-VL:** " ++ qwen_response ++ [10; 10]%N
                      ++ lit "**GPT-OSS:** " ++ gpt_response
                end),
       record_request combining
         (printed ([128260]%N ++ lit " Combining responses...")
            (record_request (gpt_request question context)
               (printed ([128309]%N ++ lit " Getting GPT-OSS response...")
                  (record_request (qwen_request question context)
                     (printed
                        ([128993]%N ++ lit " Getting Qwen3-VL response...")
                        s)))))).
Proof.
  intros qwen_response gpt_response combining.
  unfold answer_with_strategy.
  destruct (str_eq_dec (lit "BOTH") (lit "QWEN")) as [H | _];
    [discriminate H|].
  destruct (str_eq_dec (lit "BOTH") (lit "GPT")) as [H | _];
    [discriminate H|].
  destruct (str_eq_dec (lit "BOTH") (lit "BOTH")) as [_ | H];
    [|contradiction H; reflexivity].
  run. erewrite bind_ok by apply DualFacts.get_qwen_response_run. run.
  erewrite bind_ok by apply DualFacts.get_gpt_response_run. run.
  erewrite bind_ok by apply DualFacts.combine_responses_run. run.
  reflexivity.
Qed.

(** X1. When the coordinator's call raises, [process_question] prints the
    warning, asks GPT alone with the search context and answers under the
    GPT heading with GPT's answer or the text of its failure. *)
Theorem coordinator_failure_asks_gpt_alone
    (question : str) (s : State) (e : exception) :
  let context :=
    answer_or (lit "Search unavailable: ")
      (lit ". Using model knowledge only.")
      (respond env (log s) (search_run question)) in
  let coordinating :=
    chain_invoke coordinator_chain
      [(lit "question", question); (lit "context", context)] in
  let asking :=
    chain_invoke gpt_chain
      [(lit "question", question); (lit "context", context)] in
  respond env (log s ++ [search_run question]) coordinating = Raises e ->
  exists s',
    process_question env isspace toupper_full question s
      = (Ok (lit "**Model Used:** GPT-OSS" ++ [10; 10]%N
               ++ match respond env
                          (log s ++ [search_run question; coordinating])
                          asking with
                  | Returns response => response
                  | Raises failure =>
                      lit "GPT model error: " ++ exception_str failure
                  end), s')
    /\ log s' = log s ++ [search_run question; coordinating; asking]
    /\ conversation_history s' = conversation_history s
    /\ stdout s'
       = stdout s
           ++ [[128269]%N ++ lit " Searching web...";
               [129302]%N ++ lit " Determining optimal model strategy...";
               [9888; 65039]%N ++ lit " Strategy determination failed: "
                 ++ exception_str e;
               [128203]%N ++ lit " Strategy: GPT";
               [128309]%N ++ lit " Using GPT-OSS model..."].
Proof.
  intros context coordinating asking Hfail.
  destruct (process_question_dispatch question s)
    as (strategy & s2 & Hrun & Hlabel & Hlog & Hh & Hout).
  fold context in Hrun, Hlabel, Hlog, Hout.
  unfold coordinator_request in Hlabel, Hlog, Hout.
  fold coordinating in Hlabel, Hlog, Hout.
  rewrite Hfail in Hlabel, Hout. subst strategy.
  rewrite Hrun, answer_gpt_state. eexists. split.
  - rewrite Hlog. unfold answer_or, gpt_request. fold asking.
    destruct (respond env _ asking); rewrite ?app_nil_r; reflexivity.
  - autorewrite with session. rewrite Hlog, Hh. cbn [stdout record_request printed].
    rewrite Hout. split; [|split; [reflexivity|]].
    + rewrite <- app_assoc. reflexivity.
    + rewrite <- !app_assoc. reflexivity.
Qed.

(** X2. When the coordinator's answer normalizes to [QWEN],
    [process_question] asks Qwen alone: the request after the
    coordinator's is the last one, and the answer is under the Qwen
    heading. *)
Theorem qwen_label_asks_qwen_alone
    (question : str) (s : State) (raw : str) :
  let context :=
    answer_or (lit "Search unavailable: ")
      (lit ". Using model knowledge only.")
      (respond env (log s) (search_run question)) in
  let coordinating :=
    chain_invoke coordinator_chain
      [(lit "question", question); (lit "context", context)] in
  let asking :=
    chain_invoke qwen_chain
      [(lit "question", question); (lit "context", context)] in
  respond env (log s ++ [search_run question]) coordinating = Returns raw ->
  upper toupper_full (strip isspace raw) = lit "QWEN" ->
  exists s',
    process_question env isspace toupper_full question s
      = (Ok (lit "**Model Used:** Qwen3-VL" ++ [10; 10]%N
               ++ match respond env
                          (log s ++ [search_run question; coordinating])
                          asking with
                  | Returns response => response
                  | Raises failure =>
                      lit "Qwen model error: " ++ exception_str failure
                  end), s')
    /\ log s' = log s ++ [search_run question; coordinating; asking]
    /\ conversation_history s' = conversation_history s.
Proof.
  intros context coordinating asking Hraw Hlabel.
  destruct (process_question_dispatch question s)
    as (strategy & s2 & Hrun & Hstrategy & Hlog & Hh & _).
  fold context in Hrun, Hstrategy, Hlog.
  unfold coordinator_request in Hstrategy, Hlog.
  fold coordinating in Hstrategy, Hlog.
  rewrite Hraw, Hlabel in Hstrategy.
  change (str_in (lit "QWEN") strategies) with true in Hstrategy.
  cbv iota in Hstrategy. subst strategy.
  rewrite Hrun, answer_qwen_state. eexists. split.
  - rewrite Hlog. unfold answer_or, qwen_request. fold asking.
    destruct (respond env _ asking); rewrite ?app_nil_r; reflexivity.
  - autorewrite with session. rewrite Hlog, Hh.
    split; [|reflexivity]. rewrite <- app_assoc. reflexivity.
Qed.

(** X3. When the coordinator's answer normalizes to [BOTH],
    [process_question] asks Qwen, then GPT, both with the search context,
    then the combiner with what the two calls gave back, a failure text
    included; the answer is the combiner's, or the fixed template when the
    combiner raises. *)
Theorem both_label_combines_degraded_responses
    (question : str) (s : State) (raw : str) :
  let context :=
    answer_or (lit "Search unavailable: ")
      (lit ". Using model knowledge only.")
      (respond env (log s) (search_run question)) in
  let coordinating :=
    chain_invoke coordinator_chain
      [(lit "question", question); (lit "context", context)] in
  let asking_qwen :=
    chain_invoke qwen_chain
      [(lit "question", question); (lit "context", context)] in
  let asking_gpt :=
    chain_invoke gpt_chain
      [(lit "question", question); (lit "context", context)] in
  let asked := log s ++ [search_run question; coordinating] in
  let qwen_response :=
    match respond env asked asking_qwen with
    | Returns response => response
    | Raises failure => lit "Qwen model error: " ++ exception_str failure
    end in
  let gpt_response :=
    match respond env (asked ++ [asking_qwen]) asking_gpt with
    | Returns response => response
    | Raises failure => lit "GPT model error: " ++ exception_str failure
    end in
  let combining :=
    chain_invoke combination_chain
      [(lit "question", question);
       (lit "context", context);
       (lit "qwen_response", qwen_response);
       (lit "gpt_response", gpt_response)] in
  respond env (log s ++ [search_run question]) coordinating = Returns raw ->
  upper toupper_full (strip isspace raw) = lit "BOTH" ->
  exists s',
    process_question env isspace toupper_full question s
      = (Ok (lit "**Models Used:** Qwen3-VL + GPT-OSS (Combined)"
               ++ [10; 10]%N
               ++ match respond env (asked ++ [asking_qwen; asking_gpt])
                          combining with
                  | Returns combined => combined
                  | Raises _ =>
                      lit "**Combined Response:**" ++ [10; 10]%N
                        ++ lit "**Qwen3-VL:** " ++ qwen_response
                        ++ [10; 10]%N
                        ++ lit "**GPT-OSS:** " ++ gpt_response
                  end), s')
    /\ log s' = asked ++ [asking_qwen; asking_gpt; combining]
    /\ conversation_history s' = conversation_history s.
Proof.
  intros context coordinating asking_qwen asking_gpt asked
    qwen_response gpt_response combining Hraw Hlabel.
  destruct (process_question_dispatch question s)
    as (strategy & s2 & Hrun & Hstrategy & Hlog & Hh & _).
  fold context in Hrun, Hstrategy, Hlog.
  unfold coordinator_request in Hstrategy, Hlog.
  fold coordinating in Hstrategy, Hlog. fold asked in Hlog.
  rewrite Hraw, Hlabel in Hstrategy.
  change (str_in (lit "BOTH") strategies) with true in Hstrategy.
  cbv iota in Hstrategy. subst strategy.
  rewrite Hrun.
  pose proof (answer_both_state question context s2) as Hboth.
  cbv zeta in Hboth. rewrite Hlog in Hboth.
  unfold qwen_request, gpt_request, combination_request in Hboth.
  fold asking_qwen asking_gpt in Hboth.
  assert (Hq : answer_or (lit "Qwen model error: ") []
                 (respond env asked asking_qwen) = qwen_response).
  { unfold answer_or, qwen_response.
    destruct (respond env asked asking_qwen); rewrite ?app_nil_r; reflexivity. }
  assert (Hg : answer_or (lit "GPT model error: ") []
                 (respond env (asked ++ [asking_qwen]) asking_gpt)
               = gpt_response).
  { unfold answer_or, gpt_response.
    destruct (respond env (asked ++ [asking_qwen]) asking_gpt);
      rewrite ?app_nil_r; reflexivity. }
  rewrite Hq, Hg in Hboth. fold combining in Hboth.
  rewrite <- app_assoc in Hboth. cbn [app] in Hboth.
  rewrite Hboth. eexists. split; [reflexivity|].
  autorewrite with session. rewrite Hlog, Hh.
  split; [|reflexivity]. rewrite <- !app_assoc. reflexivity.
Qed.

(** The requests of [process_question], whatever the services do. *)
Lemma process_question_requests (question : str) (s : State) :
  exists answer s' context requests,
    process_question env isspace toupper_full question s = (Ok answer, s')
    /\ conversation_history s' = conversation_history s
    /\ log s'
       = log s
           ++ [search_run question;
               chain_invoke coordinator_chain
                 [(lit "question", question); (lit "context", context)]]
           ++ requests
    /\ 1 <= length requests <= 3
    /\ Forall (fun r => exists c input,
                   r = chain_invoke c input /\ c <> coordinator_chain)
         requests.
Proof.
  destruct (process_question_dispatch question s)
    as (strategy & s2 & Hrun & Hstrategy & Hlog & Hh & _).
  assert (Hin : In strategy strategies).
  { rewrite Hstrategy. apply DualFacts.settled_label_in_strategies. }
  clear Hstrategy. rewrite Hrun.
  unfold coordinator_request in Hlog.
  set (context := answer_or (lit "Search unavailable: ")
                    (lit ". Using model knowledge only.")
                    (respond env (log s) (search_run question))) in *.
  destruct Hin as [<- | [<- | [<- | [<- | []]]]].
  - rewrite answer_qwen_state.
    eexists; eexists; exists context; exists [qwen_request question context].
    split; [reflexivity|]. autorewrite with session. rewrite Hlog, Hh.
    split; [reflexivity|]. split; [rewrite <- app_assoc; reflexivity|].
    split; [cbn; lia|].
    repeat constructor; eexists; eexists; (split; [reflexivity | discriminate]).
  - rewrite answer_gpt_state.
    eexists; eexists; exists context; exists [gpt_request question context].
    split; [reflexivity|]. autorewrite with session. rewrite Hlog, Hh.
    split; [reflexivity|]. split; [rewrite <- app_assoc; reflexivity|].
    split; [cbn; lia|].
    repeat constructor; eexists; eexists; (split; [reflexivity | discriminate]).
  - rewrite answer_both_state.
    eexists; eexists; exists context; eexists.
    split; [reflexivity|]. autorewrite with session. rewrite Hlog, Hh.
    split; [reflexivity|].
    split; [rewrite <- !app_assoc; cbn [app]; reflexivity|].
    split; [cbn; lia|].
    repeat constructor; eexists; eexists; (split; [reflexivity | discriminate]).
  - destruct (DualFacts.answer_with_strategy_sequential env question context s2)
      as (s3 & Hseq & Hlog3 & Hh3).
    rewrite Hseq.
    eexists; exists s3; exists context; eexists.
    split; [reflexivity|]. rewrite Hh3, Hlog3, Hlog.
    split; [exact Hh|].
    split; [rewrite <- !app_assoc; cbn [app]; reflexivity|].
    split; [cbn; lia|].
    repeat constructor; eexists; eexists; (split; [reflexivity | discriminate]).
Qed.

(** X4. Whatever the services do, [process_question] returns an answer,
    leaves the history as it was, and asks for the search, the coordinator
    and then one to three model chains: it never reads the clock and never
    writes a file. *)
Theorem process_question_only_asks_models (question : str) (s : State) :
  exists answer s' context requests,
    process_question env isspace toupper_full question s = (Ok answer, s')
    /\ conversation_history s' = conversation_history s
    /\ log s'
       = log s
           ++ [search_run question;
               chain_invoke coordinator_chain
                 [(lit "question", question); (lit "context", context)]]
           ++ requests
    /\ 1 <= length requests <= 3
    /\ Forall (fun r => exists c input,
                   r = chain_invoke c input /\ c <> coordinator_chain)
         requests.
Proof. apply process_question_requests. Qed.
End Facts.

(** With every service down the answer is GPT's failure text. *)
Lemma coordinator_failure_asks_gpt_alone_witness :
  exists s',
    process_question outage_env ascii_isspace ascii_toupper_full
      the_question fresh
    = (Ok (lit "**Model Used:** GPT-OSS" ++ [10; 10]%N
             ++ lit "GPT model error: connection refused"), s')
    /\ log s'
       = [search_run the_question;
          chain_invoke coordinator_chain
            [(lit "question", the_question);
             (lit "context",
              lit "Search unavailable: no network. Using model knowledge only.")];
          chain_invoke gpt_chain
            [(lit "question", the_question);
             (lit "context",
              lit "Search unavailable: no network. Using model knowledge only.")]].
Proof.
  destruct (coordinator_failure_asks_gpt_alone outage_env ascii_isspace
              ascii_toupper_full the_question fresh
              (Exception (lit "connection refused")) eq_refl)
    as (s' & Hrun & Hlog & _).
  exists s'. split; [exact Hrun | exact Hlog].
Defined.

Lemma qwen_label_asks_qwen_alone_witness :
  exists s',
    process_question qwen_env ascii_isspace ascii_toupper_full
      the_question fresh
    = (Ok (lit "**Model Used:** Qwen3-VL" ++ [10; 10]%N ++ lit "Paris"), s')
    /\ log s'
       = [search_run the_question;
          chain_invoke coordinator_chain
            [(lit "question", the_question);
             (lit "context", lit "Paris is the capital of France.")];
          chain_invoke qwen_chain
            [(lit "question", the_question);
             (lit "context", lit "Paris is the capital of France.")]].
Proof.
  destruct (qwen_label_asks_qwen_alone qwen_env ascii_isspace
              ascii_toupper_full the_question fresh (lit "Qwen ")
              eq_refl eq_refl)
    as (s' & Hrun & Hlog & _).
  exists s'. split; [exact Hrun | exact Hlog].
Defined.

Lemma both_label_combines_degraded_responses_witness :
  exists s',
    process_question paris_env ascii_isspace ascii_toupper_full
      the_question fresh
    = (Ok (lit "**Models Used:** Qwen3-VL + GPT-OSS (Combined)"
             ++ [10; 10]%N
             ++ lit "**Combined Response:**" ++ [10; 10]%N
             ++ lit "**Qwen3-VL:** Paris" ++ [10; 10]%N
             ++ lit "**GPT-OSS:** The capital is Paris."), s')
    /\ length (log s') = 5.
Proof.
  destruct (both_label_combines_degraded_responses paris_env ascii_isspace
              ascii_toupper_full the_question fresh (lit " both" ++ nl)
              eq_refl eq_refl)
    as (s' & Hrun & Hlog & _).
  exists s'. split; [exact Hrun | rewrite Hlog; reflexivity].
Defined.
End DualRouting.

(** ** Turns of the loops *)

Lemma zero_padded_length (width n : nat) :
  length (zero_padded width n) = width.
Proof.
  revert n. induction width as [| w IH]; intros n; cbn [zero_padded].
  - reflexivity.
  - rewrite length_app, IH. cbn. lia.
Qed.

Lemma strftime_HM_length (d : datetime) : length (strftime_HM d) = 5.
Proof.
  unfold strftime_HM. rewrite !length_app, !zero_padded_length. reflexivity.
Qed.

Lemma Forall_slice_last {A} (P : A -> Prop) (n : nat) (l : list A) :
  Forall P l -> Forall P (slice_last n l).
Proof.
  intros Hall. rewrite <- (slice_last_suffix n l) in Hall.
  apply Forall_app in Hall. apply Hall.
Qed.

(** A handler that always returns makes the guarded statement return. *)
Lemma try_except_returns {A} (body : M A) (handler : exception -> M A) :
  (forall e s, exists a s', handler e s = (Ok a, s')) ->
  forall s, exists a s', try_except body handler s = (Ok a, s').
Proof.
  intros Hhandler s. unfold try_except.
  destruct (body s) as [[a | e] s1]; [eauto | apply Hhandler].
Qed.

Module DualLoopFacts.
Import Dual DualLoop.

Section Facts.
Variable env : Env.
Variable isspace : char -> bool.
Variable toupper_full : char -> list char.

Lemma dual_question_turn_run (user_question : str) (s : State) :
  exists answer s1 s',
    process_question env isspace toupper_full user_question s = (Ok answer, s1)
    /\ run_command env isspace toupper_full (Question user_question) s
       = (Ok true, s')
    /\ conversation_history s'
       = slice_last 20
           (conversation_history s
              ++ [lit "[" ++ strftime_HM (clock env (log s1)) ++ lit "] "
                    ++ user_question;
                  lit "[" ++ strftime_HM (clock env (log s1)) ++ lit "] "
                    ++ firstn 300 answer ++ lit "..."])
    /\ stdout s' = stdout s1 ++ [[10; 129302]%N ++ lit ": " ++ answer]
    /\ log s' = log s1 ++ [datetime_now].
Proof.
  destruct (DualRouting.process_question_requests env isspace
              toupper_full user_question s)
    as (answer & s1 & _ & _ & Hrun & Hh & _).
  exists answer, s1. eexists. split; [exact Hrun|].
  unfold run_command. split.
  - erewrite try_except_ok; [reflexivity|].
    erewrite bind_ok by exact Hrun. run.
    erewrite bind_ok by apply DualFacts.dual_add_to_history_run. run.
    reflexivity.
  - cbn [conversation_history stdout log printed with_history record_request].
    rewrite Hh. repeat split; reflexivity.
Qed.

(** X5. A question turn of the dual-model loop prints the whole answer of
    [process_question], heading included, and records the question and the
    first 300 characters of that answer followed by an ellipsis, under the
    time read after the answer was produced. *)
Theorem dual_question_turn_records_answer (user_question : str) (s : State) :
  exists answer s1 s',
    process_question env isspace toupper_full user_question s = (Ok answer, s1)
    /\ run_command env isspace toupper_full (Question user_question) s
       = (Ok true, s')
    /\ conversation_history s'
       = slice_last 20
           (conversation_history s
              ++ [lit "[" ++ strftime_HM (clock env (log s1)) ++ lit "] "
                    ++ user_question;
                  lit "[" ++ strftime_HM (clock env (log s1)) ++ lit "] "
                    ++ firstn 300 answer ++ lit "..."])
    /\ stdout s' = stdout s1 ++ [[10; 129302]%N ++ lit ": " ++ answer]
    /\ log s' = log s1 ++ [datetime_now].
Proof. apply dual_question_turn_run. Qed.

(** A turn leaves the history as it was, empties it, or records one
    exchange whose answer entry holds at most 300 characters of answer. *)
Lemma dual_run_command_history (c : command) (s : State) :
  conversation_history (snd (run_command env isspace toupper_full c s))
    = conversation_history s
  \/ conversation_history (snd (run_command env isspace toupper_full c s))
     = []
  \/ exists d question answer,
       conversation_history (snd (run_command env isspace toupper_full c s))
         = slice_last 20
             (conversation_history s
                ++ [lit "[" ++ strftime_HM d ++ lit "] " ++ question;
                    lit "[" ++ strftime_HM d ++ lit "] "
                      ++ firstn 300 answer ++ lit "..."]).
Proof.
  destruct c as [| | | | | user_question].
  - left. reflexivity.
  - left. unfold run_command. erewrite try_except_ok.
    2:{ erewrite bind_ok by apply DualFacts.dual_save_conversation_run.
        reflexivity. }
    reflexivity.
  - right; left. reflexivity.
  - left. reflexivity.
  - left. reflexivity.
  - right; right.
    destruct (dual_question_turn_run user_question s)
      as (answer & s1 & s' & _ & Hturn & Hh & _).
    rewrite Hturn. cbn [snd]. rewrite Hh. eauto.
Qed.

Lemma dual_reachable_invariant (s : State) :
  reachable env isspace toupper_full s ->
  exists exchanges,
    conversation_history s = entries_of exchanges
    /\ length exchanges <= 10
    /\ Forall (fun qa => length (snd qa) <= 311) exchanges.
Proof.
  induction 1 as [s Hempty | s c Hs (exchanges & Hh & Hlen & Hall)].
  - exists []. rewrite Hempty.
    split; [reflexivity|]. split; [cbn; lia | constructor].
  - destruct (dual_run_command_history c s)
      as [Hsame | [Hclear | (d & question & answer & Hadd)]].
    + exists exchanges. rewrite Hsame. repeat split; assumption.
    + exists []. rewrite Hclear.
      split; [reflexivity|]. split; [cbn; lia | constructor].
    + exists (slice_last 10
                (exchanges
                   ++ [(lit "[" ++ strftime_HM d ++ lit "] " ++ question,
                        lit "[" ++ strftime_HM d ++ lit "] "
                          ++ firstn 300 answer ++ lit "...")])).
      rewrite Hadd, Hh. split; [|split].
      * change 20 with (2 * 10). rewrite <- slice_last_entries_of.
        unfold entries_of. rewrite flat_map_app. reflexivity.
      * rewrite slice_last_length. lia.
      * apply Forall_slice_last, Forall_app. split; [exact Hall|].
        constructor; [|constructor]. cbn [snd].
        rewrite !length_app, strftime_HM_length, length_firstn.
        pose proof (Nat.le_min_l 300 (length answer)) as Hmin.
        revert Hmin. generalize (Nat.min 300 (length answer)). intros m Hm.
        cbn. lia.
Qed.

(** X6. In every state the dual-model loop reaches, the history is made
    of at most ten whole exchanges, and no answer entry is longer than 311
    characters: the time stamp, 300 characters of answer and the
    ellipsis. *)
Theorem dual_history_bounded (s : State) :
  reachable env isspace toupper_full s ->
  exists exchanges,
    conversation_history s = entries_of exchanges
    /\ length exchanges <= 10
    /\ Forall (fun qa => length (snd qa) <= 311) exchanges.
Proof. apply dual_reachable_invariant. Qed.
End Facts.

Lemma dual_history_bounded_witness :
  let s :=
    snd (run_command paris_env ascii_isspace ascii_toupper_full
           (Question the_question) fresh) in
  exists exchanges,
    conversation_history s = entries_of exchanges
    /\ length exchanges <= 10
    /\ Forall (fun qa => length (snd qa) <= 311) exchanges.
Proof.
  apply (dual_history_bounded paris_env ascii_isspace ascii_toupper_full).
  apply reachable_step, reachable_init. reflexivity.
Defined.

(** An answer of 400 characters is displayed whole and stored as 311. *)
Example dual_long_answer_stored_cut :
  let world :=
    {| respond := fun _ r =>
         match r with
         | chain_invoke gpt_chain _ => Returns (repeat 120%N 400)
         | _ => Raises (Exception [])
         end;
       clock := fun _ => noon |} in
  let s :=
    snd (run_command world ascii_isspace ascii_toupper_full
           (Question the_question) fresh) in
  map (@length char) (conversation_history s) = [25; 311]
  /\ length (last (stdout s) []) = 4 + 25 + 400.
Proof. split; reflexivity. Qed.
End DualLoopFacts.

(** ** The four loops *)

Lemma lstrip_all_space (isspace : char -> bool) (s : str) :
  Forall (fun c => isspace c = true) s -> lstrip isspace s = [].
Proof.
  induction 1 as [| c s Hc _ IH]; cbn [lstrip]; [reflexivity|].
  rewrite Hc. exact IH.
Qed.

Lemma strip_all_space (isspace : char -> bool) (s : str) :
  Forall (fun c => isspace c = true) s -> strip isspace s = [].
Proof.
  intros Hall. unfold strip, rstrip.
  rewrite (lstrip_all_space isspace s Hall). reflexivity.
Qed.

Section Loops.
Variable env : Env.
Variable isspace : char -> bool.
Variable toupper_full : char -> list char.
Variable lower : str -> str.

Lemma dual_run_line_returns (line : str) (s : State) :
  exists continue s',
    DualLoop.run_line env isspace toupper_full lower line s
      = (Ok continue, s').
Proof.
  unfold DualLoop.run_line, DualLoop.run_command.
  apply try_except_returns. intros e s0. eexists; eexists; reflexivity.
Qed.

Lemma advanced_run_line_returns (line : str) (s : State) :
  exists continue s',
    AdvancedLoop.run_line env isspace lower line s = (Ok continue, s').
Proof.
  unfold AdvancedLoop.run_line, Advanced.run_command.
  apply try_except_returns. intros e s0. eexists; eexists; reflexivity.
Qed.

Lemma simple_run_line_returns (line : str) (s : State) :
  exists continue s',
    Simple.run_line env isspace lower line s = (Ok continue, s').
Proof.
  unfold Simple.run_line.
  apply try_except_returns. intros e s0. eexists; eexists; reflexivity.
Qed.

Lemma basic_run_line_returns (line : str) (s : State) :
  exists continue s',
    Basic.run_line env isspace lower line s = (Ok continue, s').
Proof.
  unfold Basic.run_line.
  apply try_except_returns. intros e s0. eexists; eexists; reflexivity.
Qed.









(** An exit word makes every loop leave, with its farewell. *)
Lemma run_line_on_exit_word (line : str) (s : State) :
  str_in (lower (strip isspace line)) exit_words = true ->
  (exists s', DualLoop.run_line env isspace toupper_full lower line s
              = (Ok false, s'))
  /\ (exists s', AdvancedLoop.run_line env isspace lower line s
                = (Ok false, s'))
  /\ (exists s', Simple.run_line env isspace lower line s = (Ok false, s'))
  /\ (exists s', Basic.run_line env isspace lower line s = (Ok false, s')).
Proof.
  intros Hword.
  unfold DualLoop.run_line, AdvancedLoop.run_line,
    DualLoop.classify, AdvancedLoop.classify,
    Simple.run_line, Basic.run_line.
  cbv zeta. rewrite Hword.
  repeat split; eexists; reflexivity.
Qed.













(** At the end of the input [input] raises, the loop prints the error and
    reads again; an interrupt then ends it. *)
Example end_of_input_then_interrupt :
  fst (Basic.run_events paris_env ascii_isspace ascii_lower
         [EndOfInput; Interrupt] fresh) = Ok false
  /\ stdout (snd (Basic.run_events paris_env ascii_isspace ascii_lower
                    [EndOfInput; Interrupt] fresh))
     = [[129302]%N
          ++ lit " Sorry, I encountered an error: EOF when reading a line";
        [129302]%N ++ lit " Please try again.";
        [10; 129302]%N ++ lit " Goodbye!"]
  /\ fst (Basic.run_events paris_env ascii_isspace ascii_lower
            [EndOfInput; EndOfInput] fresh) = Ok true.
Proof. repeat split; reflexivity. Qed.

(** X8. A line that is an exit word once stripped and lowered ends each
    loop: the lines after it are not processed. *)
Theorem exit_word_ends_the_loops
    (before after : list str) (line : str) (s : State) :
  str_in (lower (strip isspace line)) exit_words = true ->
  DualLoop.run_lines env isspace toupper_full lower
      (before ++ line :: after) s
    = DualLoop.run_lines env isspace toupper_full lower (before ++ [line]) s
  /\ AdvancedLoop.run_lines env isspace lower (before ++ line :: after) s
     = AdvancedLoop.run_lines env isspace lower (before ++ [line]) s
  /\ Simple.run_lines env isspace lower (before ++ line :: after) s
     = Simple.run_lines env isspace lower (before ++ [line]) s
  /\ Basic.run_lines env isspace lower (before ++ line :: after) s
     = Basic.run_lines env isspace lower (before ++ [line]) s.
Proof.
  intros Hexit.
  unfold DualLoop.run_lines, AdvancedLoop.run_lines,
    Simple.run_lines, Basic.run_lines.
  revert s.
  induction before as [| first rest IH]; intros s.
  - destruct (run_line_on_exit_word line s Hexit)
      as ((s1 & H1) & (s2 & H2) & (s3 & H3) & (s4 & H4)).
    cbn [app map DualLoop.run_events AdvancedLoop.run_events
           Simple.run_events Basic.run_events
           DualLoop.run_event AdvancedLoop.run_event
           Simple.run_event Basic.run_event].
    rewrite !(bind_ok _ _ _ _ _ H1), !(bind_ok _ _ _ _ _ H2),
      !(bind_ok _ _ _ _ _ H3), !(bind_ok _ _ _ _ _ H4).
    repeat split; reflexivity.
  - cbn [app map DualLoop.run_events AdvancedLoop.run_events
           Simple.run_events Basic.run_events
           DualLoop.run_event AdvancedLoop.run_event
           Simple.run_event Basic.run_event].
    split; [|split; [|split]].
    + destruct (dual_run_line_returns first s) as (continue & s1 & Hline).
      rewrite !(bind_ok _ _ _ _ _ Hline).
      destruct continue; [apply IH | reflexivity].
    + destruct (advanced_run_line_returns first s) as (continue & s1 & Hline).
      rewrite !(bind_ok _ _ _ _ _ Hline).
      destruct continue; [apply IH | reflexivity].
    + destruct (simple_run_line_returns first s) as (continue & s1 & Hline).
      rewrite !(bind_ok _ _ _ _ _ Hline).
      destruct continue; [apply IH | reflexivity].
    + destruct (basic_run_line_returns first s) as (continue & s1 & Hline).
      rewrite !(bind_ok _ _ _ _ _ Hline).
      destruct continue; [apply IH | reflexivity].
Qed.

(** X9. A line of white space only is ignored by each loop: nothing is
    printed, asked or recorded, and the loop goes on. *)
Theorem blank_line_is_ignored (line : str) (s : State) :
  Forall (fun c => isspace c = true) line ->
  lower [] = [] ->
  DualLoop.run_line env isspace toupper_full lower line s = (Ok true, s)
  /\ AdvancedLoop.run_line env isspace lower line s = (Ok true, s)
  /\ Simple.run_line env isspace lower line s = (Ok true, s)
  /\ Basic.run_line env isspace lower line s = (Ok true, s).
Proof.
  intros Hblank Hlower.
  unfold DualLoop.run_line, AdvancedLoop.run_line,
    DualLoop.classify, AdvancedLoop.classify,
    Simple.run_line, Basic.run_line.
  cbv zeta. rewrite (strip_all_space isspace line Hblank), Hlower.
  repeat split; reflexivity.
Qed.
End Loops.

Lemma exit_word_ends_the_loops_witness :
  str_in (ascii_lower (strip ascii_isspace (lit "  Exit "))) exit_words = true
  /\ Basic.run_lines paris_env ascii_isspace ascii_lower
       ([the_question] ++ lit "  Exit " :: [the_question]) fresh
     = Basic.run_lines paris_env ascii_isspace ascii_lower
         ([the_question] ++ [lit "  Exit "]) fresh.
Proof.
  split; [reflexivity|].
  apply (exit_word_ends_the_loops paris_env ascii_isspace ascii_toupper_full
           ascii_lower [the_question] [the_question] (lit "  Exit ") fresh).
  reflexivity.
Defined.

Lemma blank_line_is_ignored_witness :
  Forall (fun c => ascii_isspace c = true) (lit "   ")
  /\ DualLoop.run_line paris_env ascii_isspace ascii_toupper_full ascii_lower
       (lit "   ") fresh = (Ok true, fresh).
Proof.
  assert (Hblank : Forall (fun c => ascii_isspace c = true) (lit "   "))
    by (repeat constructor).
  split; [exact Hblank|].
  apply (blank_line_is_ignored paris_env ascii_isspace ascii_toupper_full
           ascii_lower (lit "   ") fresh Hblank eq_refl).
Defined.

(** ** Question turns of the session with history *)

Lemma slice_last_snoc {A} (n : nat) (l : list A) (x : A) :
  slice_last (S n) (l ++ [x]) = slice_last n l ++ [x].
Proof.
  unfold slice_last. rewrite length_app, skipn_app. cbn [length].
  replace (length l + 1 - S n) with (length l - n) by lia.
  replace (length l - n - length l) with 0 by lia.
  reflexivity.
Qed.

Lemma join_snoc (sep : str) (l : list str) (x : str) :
  exists before, join sep (l ++ [x]) = before ++ x.
Proof.
  induction l as [| y l [before IH]].
  - exists []. reflexivity.
  - cbn [app join]. destruct (l ++ [x]) as [| z rest] eqn:Hl.
    + destruct l; discriminate Hl.
    + exists (y ++ sep ++ before). rewrite IH, <- !app_assoc. reflexivity.
Qed.

Module AdvancedLoopFacts.
Import Advanced.

Section Facts.
Variable env : Env.

(** The chain of the session: the search, guarded; the history as text;
    then the model, whose failure is not caught here. *)
Lemma advanced_chain_invoke_question_run
    (question history_text : str) (s : State) :
  let context :=
    answer_or (lit "Search unavailable: ")
      (lit ". Using general knowledge only.")
      (respond env (log s) (search_run question)) in
  let asking :=
    chain_invoke advanced_chain
      [(lit "question", question);
       (lit "context", context);
       (lit "history", history_text)] in
  fst (format_history s) = Ok history_text ->
  chain_invoke_question env question s
    = (match respond env (log s ++ [search_run question]) asking with
       | Returns response => Ok response
       | Raises e => Err e
       end,
       record_request asking (record_request (search_run question) s)).
Proof.
  intros context asking Hformat.
  rewrite AdvancedFacts.format_history_run in Hformat. cbn [fst] in Hformat.
  apply Ok_inj in Hformat.
  unfold chain_invoke_question.
  erewrite bind_ok by apply AdvancedFacts.advanced_search_with_error_handling_run.
  run. erewrite bind_ok by apply AdvancedFacts.format_history_run. run.
  autorewrite with session. rewrite Hformat. fold context. fold asking.
  unfold call. autorewrite with session.
  destruct (respond env (log s ++ [search_run question]) asking); reflexivity.
Qed.

Lemma format_history_after_print (line : str) (s : State) :
  fst (format_history (printed line s)) = fst (format_history s).
Proof.
  rewrite !AdvancedFacts.format_history_run. reflexivity.
Qed.

(** X10. When the model's call raises, a question turn of the session
    with history records nothing: the history is as it was, the failure is
    printed with its cause, and the loop goes on. *)
Theorem advanced_failed_question_leaves_no_trace
    (user_question history_text : str) (s : State) (e : exception) :
  let context :=
    match respond env (log s) (search_run user_question) with
    | Returns results => results
    | Raises failure =>
        lit "Search unavailable: " ++ exception_str failure
          ++ lit ". Using general knowledge only."
    end in
  let asking :=
    chain_invoke advanced_chain
      [(lit "question", user_question);
       (lit "context", context);
       (lit "history", history_text)] in
  fst (format_history s) = Ok history_text ->
  respond env (log s ++ [search_run user_question]) asking = Raises e ->
  exists s',
    run_command env (Question user_question) s = (Ok true, s')
    /\ conversation_history s' = conversation_history s
    /\ log s' = log s ++ [search_run user_question; asking]
    /\ stdout s'
       = stdout s
           ++ [[129302]%N ++ lit " Searching and thinking...";
               [129302]%N ++ lit " Sorry, I encountered an error: "
                 ++ exception_str e;
               [129302]%N ++ lit " Please try again."].
Proof.
  intros context asking Hformat Hfail.
  rewrite <- (format_history_after_print
                ([129302]%N ++ lit " Searching and thinking...")) in Hformat.
  pose proof (advanced_chain_invoke_question_run user_question history_text
                (printed ([129302]%N ++ lit " Searching and thinking...") s)
                Hformat) as Hchain.
  cbv zeta in Hchain. autorewrite with session in Hchain.
  change (answer_or (lit "Search unavailable: ")
            (lit ". Using general knowledge only.")
            (respond env (log s) (search_run user_question)))
    with context in Hchain.
  fold asking in Hchain. rewrite Hfail in Hchain.
  eexists. unfold run_command. split.
  - erewrite try_except_err; [reflexivity|].
    run. erewrite bind_err by exact Hchain. reflexivity.
  - split; [reflexivity|]. split.
    + cbn. rewrite <- app_assoc. reflexivity.
    + cbn. rewrite <- !app_assoc. reflexivity.
Qed.

(** X11. When the model answers, a question turn of the session with
    history has sent it the history as [format_history] rendered it before
    the turn, prints the answer and records the question and the whole
    answer under the time read after the answer. *)
Theorem advanced_question_turn_records_whole_answer
    (user_question history_text response : str) (s : State) :
  let context :=
    match respond env (log s) (search_run user_question) with
    | Returns results => results
    | Raises failure =>
        lit "Search unavailable: " ++ exception_str failure
          ++ lit ". Using general knowledge only."
    end in
  let asking :=
    chain_invoke advanced_chain
      [(lit "question", user_question);
       (lit "context", context);
       (lit "history", history_text)] in
  let timestamp :=
    strftime_HM (clock env (log s ++ [search_run user_question; asking])) in
  fst (format_history s) = Ok history_text ->
  respond env (log s ++ [search_run user_question]) asking
    = Returns response ->
  exists s',
    run_command env (Question user_question) s = (Ok true, s')
    /\ conversation_history s'
       = slice_last 20
           (conversation_history s
              ++ [lit "[" ++ timestamp ++ lit "] " ++ user_question;
                  lit "[" ++ timestamp ++ lit "] " ++ response])
    /\ log s' = log s ++ [search_run user_question; asking; datetime_now]
    /\ stdout s'
       = stdout s
           ++ [[129302]%N ++ lit " Searching and thinking...";
               [129302]%N ++ lit ": " ++ response].
Proof.
  intros context asking timestamp Hformat Hanswer.
  rewrite <- (format_history_after_print
                ([129302]%N ++ lit " Searching and thinking...")) in Hformat.
  pose proof (advanced_chain_invoke_question_run user_question history_text
                (printed ([129302]%N ++ lit " Searching and thinking...") s)
                Hformat) as Hchain.
  cbv zeta in Hchain. autorewrite with session in Hchain.
  change (answer_or (lit "Search unavailable: ")
            (lit ". Using general knowledge only.")
            (respond env (log s) (search_run user_question)))
    with context in Hchain.
  fold asking in Hchain. rewrite Hanswer in Hchain.
  eexists. unfold run_command. split.
  - erewrite try_except_ok; [reflexivity|].
    run. erewrite bind_ok by exact Hchain. run.
    erewrite bind_ok by apply AdvancedFacts.advanced_add_to_history_run. run.
    reflexivity.
  - cbn [conversation_history stdout log printed with_history record_request].
    unfold timestamp. rewrite <- !app_assoc. cbn [app].
    repeat split; reflexivity.
Qed.

Lemma slice_last_20_entries_of (exchanges : list (str * str)) :
  slice_last 20 (entries_of exchanges) = entries_of (slice_last 10 exchanges).
Proof. exact (slice_last_entries_of 10 exchanges). Qed.

Lemma slice_last_6_entries_of (exchanges : list (str * str)) :
  slice_last 6 (entries_of exchanges) = entries_of (slice_last 3 exchanges).
Proof. exact (slice_last_entries_of 3 exchanges). Qed.

Lemma firstn_200_stamped (timestamp text : str) :
  length timestamp = 5 ->
  firstn 200 (lit "[" ++ timestamp ++ lit "] " ++ text)
    = lit "[" ++ timestamp ++ lit "] " ++ firstn 192 text.
Proof.
  intros Hlen.
  rewrite (app_assoc timestamp), (app_assoc (lit "[")).
  rewrite firstn_app.
  assert (Hprefix : length (lit "[" ++ timestamp ++ lit "] ") = 8)
    by (rewrite !length_app, Hlen; reflexivity).
  rewrite Hprefix, firstn_all2 by (rewrite Hprefix; lia).
  rewrite <- !app_assoc. reflexivity.
Qed.

(** X12. In a reachable state, once an exchange is recorded the text
    [format_history] builds ends with its block, and the 200 characters
    the block keeps of the answer entry are the time stamp and the first
    192 characters of the answer. *)
Theorem format_history_shows_192_of_answer
    (question answer : str) (s : State) :
  let timestamp := strftime_HM (clock env (log s)) in
  reachable env s ->
  exists before,
    fst (format_history (snd (add_to_history env question answer s)))
    = Ok (before ++ lit "Q: [" ++ timestamp ++ lit "] " ++ question
            ++ [10]%N ++ lit "A: [" ++ timestamp ++ lit "] "
            ++ firstn 192 answer ++ lit "...").
Proof.
  intros timestamp Hreach.
  destruct (AdvancedFacts.reachable_whole_exchanges env s Hreach)
    as (exchanges & Hh & _).
  rewrite AdvancedFacts.advanced_add_to_history_run. cbn [snd].
  fold timestamp.
  set (q_entry := lit "[" ++ timestamp ++ lit "] " ++ question).
  set (a_entry := lit "[" ++ timestamp ++ lit "] " ++ answer).
  assert (Hnew : slice_last 20 (conversation_history s ++ [q_entry; a_entry])
                 = entries_of
                     (slice_last 9 exchanges ++ [(q_entry, a_entry)])).
  { rewrite Hh.
    change [q_entry; a_entry] with (entries_of [(q_entry, a_entry)]).
    unfold entries_of at 1 2. rewrite <- flat_map_app.
    fold (entries_of (exchanges ++ [(q_entry, a_entry)])).
    rewrite slice_last_20_entries_of, slice_last_snoc. reflexivity. }
  rewrite Hnew, AdvancedFacts.format_history_run. cbn [fst].
  autorewrite with session.
  destruct (entries_of (slice_last 9 exchanges ++ [(q_entry, a_entry)]))
    as [| e h] eqn:Hentries.
  { apply (f_equal (@length str)) in Hentries.
    rewrite entries_of_length, length_app in Hentries.
    cbn in Hentries. lia. }
  rewrite <- Hentries.
  rewrite slice_last_6_entries_of, slice_last_snoc.
  rewrite AdvancedFacts.format_pairs_entries_of, map_app. cbn [map fst snd].
  destruct (join_snoc (nl ++ nl)
              (map (fun qa => exchange_block (fst qa) (snd qa))
                 (slice_last 2 (slice_last 9 exchanges)))
              (exchange_block q_entry a_entry)) as [before Hjoin].
  rewrite Hjoin. exists before.
  apply f_equal. apply (f_equal (app before)).
  unfold exchange_block, slice_to, q_entry, a_entry.
  rewrite firstn_200_stamped by apply strftime_HM_length.
  rewrite <- !app_assoc. reflexivity.
Qed.

(** The requests of a question turn: the search, the model with the
    history as text, and the clock when there is an answer to record. *)
Lemma advanced_question_turn_log
    (user_question history_text : str) (s : State) :
  let context :=
    answer_or (lit "Search unavailable: ")
      (lit ". Using general knowledge only.")
      (respond env (log s) (search_run user_question)) in
  let asking :=
    chain_invoke advanced_chain
      [(lit "question", user_question);
       (lit "context", context);
       (lit "history", history_text)] in
  fst (format_history s) = Ok history_text ->
  log (snd (run_command env (Question user_question) s))
    = log s
        ++ search_run user_question :: asking
        :: match respond env (log s ++ [search_run user_question]) asking with
           | Returns _ => [datetime_now]
           | Raises _ => []
           end.
Proof.
  intros context asking Hformat.
  rewrite <- (format_history_after_print
                ([129302]%N ++ lit " Searching and thinking...")) in Hformat.
  pose proof (advanced_chain_invoke_question_run user_question history_text
                (printed ([129302]%N ++ lit " Searching and thinking...") s)
                Hformat) as Hchain.
  cbv zeta in Hchain. autorewrite with session in Hchain.
  fold context in Hchain. fold asking in Hchain.
  unfold run_command.
  destruct (respond env (log s ++ [search_run user_question]) asking)
    as [response | e].
  - erewrite try_except_ok.
    2:{ run. erewrite bind_ok by exact Hchain. run.
        erewrite bind_ok by apply AdvancedFacts.advanced_add_to_history_run.
        run. reflexivity. }
    cbn. rewrite <- !app_assoc. reflexivity.
  - erewrite try_except_err.
    2:{ run. erewrite bind_err by exact Hchain. reflexivity. }
    cbn. rewrite <- !app_assoc. reflexivity.
Qed.

(** X16. After a clear turn, the next question of the session with
    history is sent to the model with ["No previous conversation."] as its
    history, whatever had been recorded before. *)
Theorem cleared_session_sends_no_history (user_question : str) (s : State) :
  let cleared := snd (run_command env Clear s) in
  let context :=
    match respond env (log s) (search_run user_question) with
    | Returns results => results
    | Raises failure =>
        lit "Search unavailable: " ++ exception_str failure
          ++ lit ". Using general knowledge only."
    end in
  let asking :=
    chain_invoke advanced_chain
      [(lit "question", user_question);
       (lit "context", context);
       (lit "history", lit "No previous conversation.")] in
  conversation_history cleared = []
  /\ log (snd (run_command env (Question user_question) cleared))
     = log s
         ++ search_run user_question :: asking
         :: match respond env (log s ++ [search_run user_question]) asking with
            | Returns _ => [datetime_now]
            | Raises _ => []
            end.
Proof.
  intros cleared context asking. split; [reflexivity|].
  exact (advanced_question_turn_log user_question
           (lit "No previous conversation.") cleared eq_refl).
Qed.
End Facts.

Lemma advanced_failed_question_leaves_no_trace_witness :
  exists s',
    run_command outage_env (Question the_question) fresh = (Ok true, s')
    /\ conversation_history s' = []
    /\ stdout s'
       = [[129302]%N ++ lit " Searching and thinking...";
          [129302]%N ++ lit " Sorry, I encountered an error: connection refused";
          [129302]%N ++ lit " Please try again."].
Proof.
  destruct (advanced_failed_question_leaves_no_trace outage_env the_question
              (lit "No previous conversation.") fresh
              (Exception (lit "connection refused")) eq_refl eq_refl)
    as (s' & Hrun & Hh & _ & Hout).
  exists s'. split; [exact Hrun|]. split; [exact Hh | exact Hout].
Defined.

Lemma advanced_question_turn_records_whole_answer_witness :
  exists s',
    run_command paris_env (Question the_question) fresh = (Ok true, s')
    /\ conversation_history s'
       = [lit "[12:00] capital of France"; lit "[12:00] Paris."]
    /\ log s'
       = [search_run the_question;
          chain_invoke advanced_chain
            [(lit "question", the_question);
             (lit "context", lit "Paris is the capital of France.");
             (lit "history", lit "No previous conversation.")];
          datetime_now].
Proof.
  destruct (advanced_question_turn_records_whole_answer paris_env the_question
              (lit "No previous conversation.") (lit "Paris.") fresh
              eq_refl eq_refl)
    as (s' & Hrun & Hh & Hlog & _).
  exists s'. split; [exact Hrun|]. split; [exact Hh | exact Hlog].
Defined.

Lemma format_history_shows_192_of_answer_witness :
  exists before,
    fst (format_history
           (snd (add_to_history paris_env the_question (repeat 120%N 250)
                   fresh)))
    = Ok (before ++ lit "Q: [12:00] capital of France" ++ [10]%N
            ++ lit "A: [12:00] " ++ repeat 120%N 192 ++ lit "...").
Proof.
  apply (format_history_shows_192_of_answer paris_env the_question
           (repeat 120%N 250) fresh).
  apply reachable_init. reflexivity.
Defined.
End AdvancedLoopFacts.

(** ** The two scripts *)

Module ScriptFacts.
Section Facts.
Variable env : Env.
Variable isspace : char -> bool.
Variable lower : str -> str.

(** A chain of the side-by-side script under its guard: the search, then
    the model when the search returned; the failure of either is the
    text of the guard. *)
Lemma simple_guarded_chain (c : chain) (label question : str) (s : State) :
  let searching := search_run question in
  let asking context :=
    chain_invoke c [(lit "question", question); (lit "context", context)] in
  exists s1,
    try_except
      (context <- call env searching;; call env (asking context))
      (fun e => ret (label ++ exception_str e)) s
    = (Ok (match respond env (log s) searching with
           | Returns context =>
               match respond env (log s ++ [searching]) (asking context) with
               | Returns answer => answer
               | Raises e => label ++ exception_str e
               end
           | Raises e => label ++ exception_str e
           end), s1)
    /\ log s1
       = log s
           ++ searching
           :: match respond env (log s) searching with
              | Returns context => [asking context]
              | Raises _ => []
              end
    /\ stdout s1 = stdout s
    /\ conversation_history s1 = conversation_history s.
Proof.
  intros searching asking. unfold try_except, bind, call.
  destruct (respond env (log s) searching) as [context | e].
  - autorewrite with session.
    destruct (respond env (log s ++ [searching]) (asking context));
      (eexists; split; [reflexivity|]);
      (split; [cbn; rewrite <- app_assoc; reflexivity|]);
      split; reflexivity.
  - eexists. split; [reflexivity|]. repeat split; reflexivity.
Qed.

(** A question of the side-by-side script, in terms of what the services
    answer. *)
Lemma simple_answer_question_run (user_question : str) (s : State) :
  let searching := search_run user_question in
  let asking c context :=
    chain_invoke c
      [(lit "question", user_question); (lit "context", context)] in
  let requests c asked :=
    match respond env asked searching with
    | Returns context => [asking c context]
    | Raises _ => []
    end in
  let response c label asked :=
    match respond env asked searching with
    | Returns context =>
        match respond env (asked ++ [searching]) (asking c context) with
        | Returns answer => answer
        | Raises e => label ++ exception_str e
        end
    | Raises e => label ++ exception_str e
    end in
  let qwen_response :=
    response qwen_chain (lit "Qwen3-VL Error: ") (log s) in
  let after_qwen := log s ++ searching :: requests qwen_chain (log s) in
  let gpt_response :=
    response gpt_chain (lit "GPT-OSS Error: ") after_qwen in
  exists s',
    Simple.answer_question env user_question s = (Ok tt, s')
    /\ log s' = after_qwen ++ searching :: requests gpt_chain after_qwen
    /\ conversation_history s' = conversation_history s
    /\ stdout s'
       = stdout s
           ++ [[128269]%N
                 ++ lit " Searching web and thinking with both models...";
               [128993]%N ++ lit " Getting Qwen3-VL response...";
               [128309]%N ++ lit " Getting GPT-OSS response...";
               [10]%N ++ repeat 61%N 80;
               [128993]%N ++ lit " QWEN3-VL RESPONSE:";
               repeat 45%N 40;
               qwen_response;
               [10]%N ++ repeat 61%N 80;
               [128309]%N ++ lit " GPT-OSS RESPONSE:";
               repeat 45%N 40;
               gpt_response;
               repeat 61%N 80].
Proof.
  intros searching asking requests response qwen_response after_qwen
    gpt_response.
  unfold Simple.answer_question. run.
  match goal with
  | |- context [bind (try_except (Simple.qwen_chain_invoke _ _) _) _ ?st] =>
      destruct (simple_guarded_chain qwen_chain (lit "Qwen3-VL Error: ")
                  user_question st)
        as (s1 & Hq & Hlog1 & Hout1 & Hh1)
  end.
  autorewrite with session in Hq, Hlog1, Hh1.
  cbn [stdout printed] in Hout1.
  fold searching in Hq, Hlog1.
  change (Simple.qwen_chain_invoke env user_question)
    with (context <- call env searching;;
          call env (chain_invoke qwen_chain
                      [(lit "question", user_question);
                       (lit "context", context)])).
  erewrite bind_ok by exact Hq. run.
  match goal with
  | |- context [bind (try_except (Simple.gpt_chain_invoke _ _) _) _ ?st] =>
      destruct (simple_guarded_chain gpt_chain (lit "GPT-OSS Error: ")
                  user_question st)
        as (s2 & Hg & Hlog2 & Hout2 & Hh2)
  end.
  autorewrite with session in Hg, Hlog2, Hh2.
  cbn [stdout printed] in Hout2.
  fold searching in Hg, Hlog2. rewrite Hlog1 in Hg, Hlog2.
  change (Simple.gpt_chain_invoke env user_question)
    with (context <- call env searching;;
          call env (chain_invoke gpt_chain
                      [(lit "question", user_question);
                       (lit "context", context)])).
  erewrite bind_ok by exact Hg. run.
  eexists. split; [reflexivity|].
  cbn [log stdout conversation_history printed].
  rewrite Hlog2, Hh2, Hh1, Hout2, Hout1.
  split; [reflexivity|]. split; [reflexivity|].
  rewrite <- !(@app_assoc str). reflexivity.
Qed.

(** X13. In the side-by-side script every question runs the search twice,
    once in each chain, and asks a chain's model only when its search
    returned; the GPT chain runs whatever happened to the Qwen chain. The
    two texts printed under the headings are what each chain gave: the
    answer of its model, or ["Qwen3-VL Error: "] (["GPT-OSS Error: "])
    followed by the cause when its search or its model raised. *)
Theorem simple_question_searches_twice (user_question : str) (s : State) :
  let searching := search_run user_question in
  let asking c context :=
    chain_invoke c
      [(lit "question", user_question); (lit "context", context)] in
  let requests c asked :=
    match respond env asked searching with
    | Returns context => [asking c context]
    | Raises _ => []
    end in
  let response c label asked :=
    match respond env asked searching with
    | Returns context =>
        match respond env (asked ++ [searching]) (asking c context) with
        | Returns answer => answer
        | Raises e => label ++ exception_str e
        end
    | Raises e => label ++ exception_str e
    end in
  let qwen_response :=
    response qwen_chain (lit "Qwen3-VL Error: ") (log s) in
  let after_qwen := log s ++ searching :: requests qwen_chain (log s) in
  let gpt_response :=
    response gpt_chain (lit "GPT-OSS Error: ") after_qwen in
  exists s',
    Simple.answer_question env user_question s = (Ok tt, s')
    /\ log s' = after_qwen ++ searching :: requests gpt_chain after_qwen
    /\ conversation_history s' = conversation_history s
    /\ stdout s'
       = stdout s
           ++ [[128269]%N
                 ++ lit " Searching web and thinking with both models...";
               [128993]%N ++ lit " Getting Qwen3-VL response...";
               [128309]%N ++ lit " Getting GPT-OSS response...";
               [10]%N ++ repeat 61%N 80;
               [128993]%N ++ lit " QWEN3-VL RESPONSE:";
               repeat 45%N 40;
               qwen_response;
               [10]%N ++ repeat 61%N 80;
               [128309]%N ++ lit " GPT-OSS RESPONSE:";
               repeat 45%N 40;
               gpt_response;
               repeat 61%N 80].
Proof. apply simple_answer_question_run. Qed.

(** X14. In the side-by-side script a search that raises in the Qwen
    chain is printed as Qwen's error, ["Qwen3-VL Error: " + cause]; the
    Qwen model is not asked during that question, and the GPT chain still
    runs its own search, then its model, and what it gives is printed
    under the GPT heading. *)
Theorem simple_search_failure_shown_as_model_error
    (user_question : str) (s : State) (e : exception) :
  let searching := search_run user_question in
  let asking context :=
    chain_invoke gpt_chain
      [(lit "question", user_question); (lit "context", context)] in
  let asked := log s ++ [searching] in
  let gpt_requests :=
    match respond env asked searching with
    | Returns context => [asking context]
    | Raises _ => []
    end in
  let gpt_response :=
    match respond env asked searching with
    | Returns context =>
        match respond env (asked ++ [searching]) (asking context) with
        | Returns answer => answer
        | Raises failure => lit "GPT-OSS Error: " ++ exception_str failure
        end
    | Raises failure => lit "GPT-OSS Error: " ++ exception_str failure
    end in
  respond env (log s) searching = Raises e ->
  exists s',
    Simple.answer_question env user_question s = (Ok tt, s')
    /\ log s' = log s ++ searching :: searching :: gpt_requests
    /\ (forall input,
          ~ In (chain_invoke qwen_chain input)
              (searching :: searching :: gpt_requests))
    /\ stdout s'
       = stdout s
           ++ [[128269]%N
                 ++ lit " Searching web and thinking with both models...";
               [128993]%N ++ lit " Getting Qwen3-VL response...";
               [128309]%N ++ lit " Getting GPT-OSS response...";
               [10]%N ++ repeat 61%N 80;
               [128993]%N ++ lit " QWEN3-VL RESPONSE:";
               repeat 45%N 40;
               lit "Qwen3-VL Error: " ++ exception_str e;
               [10]%N ++ repeat 61%N 80;
               [128309]%N ++ lit " GPT-OSS RESPONSE:";
               repeat 45%N 40;
               gpt_response;
               repeat 61%N 80].
Proof.
  intros searching asking asked gpt_requests gpt_response Hsearch.
  destruct (simple_answer_question_run user_question s)
    as (s' & Hrun & Hlog & _ & Hout).
  fold searching in Hlog, Hout. rewrite Hsearch in Hlog, Hout.
  fold asked in Hlog, Hout. fold gpt_requests in Hlog.
  exists s'. split; [exact Hrun|]. split.
  { rewrite Hlog. unfold asked. rewrite <- app_assoc. reflexivity. }
  split; [|exact Hout].
  intros input [H | [H | H]]; try discriminate H.
  unfold gpt_requests in H.
  destruct (respond env asked searching); [|contradiction].
  destruct H as [H | []]. discriminate H.
Qed.

(** X15. In the single-model script a question turn always goes on. When
    the search raises, the model is not asked and the turn prints the
    apology with the search's cause; a failure of the model is reported
    the same way; otherwise the answer and an empty line are printed. *)
Theorem basic_question_turn (line : str) (s : State) :
  let user_question := strip isspace line in
  let asking context :=
    chain_invoke gpt_chain
      [(lit "question", user_question); (lit "context", context)] in
  let apology e :=
    [[129302]%N ++ lit " Sorry, I encountered an error: " ++ exception_str e;
     [129302]%N ++ lit " Please try again."] in
  str_in (lower user_question) exit_words = false ->
  user_question <> [] ->
  exists s',
    Basic.run_line env isspace lower line s = (Ok true, s')
    /\ conversation_history s' = conversation_history s
    /\ log s'
       = log s
           ++ search_run user_question
           :: match respond env (log s) (search_run user_question) with
              | Returns context => [asking context]
              | Raises _ => []
              end
    /\ stdout s'
       = stdout s
           ++ ([129302]%N ++ lit " Thinking...")
           :: match respond env (log s) (search_run user_question) with
              | Returns context =>
                  match respond env (log s ++ [search_run user_question])
                          (asking context) with
                  | Returns response =>
                      [[129302]%N ++ lit ": " ++ response; []]
                  | Raises e => apology e
                  end
              | Raises e => apology e
              end.
Proof.
  intros user_question asking apology Hword Hsome.
  unfold Basic.run_line, try_except. cbv zeta. fold user_question.
  rewrite Hword. clearbody user_question.
  destruct user_question as [| c rest]; [contradiction|].
  set (asked := c :: rest) in *. clearbody asked.
  unfold Basic.chain_invoke_question. run.
  unfold bind at 1. unfold bind at 1. unfold call at 1.
  autorewrite with session.
  destruct (respond env (log s) (search_run asked)) as [context | e].
  - unfold call. autorewrite with session. fold (asking context).
    destruct (respond env (log s ++ [search_run asked])
                (asking context)) as [response | e];
      (eexists; split; [reflexivity|]; split; [reflexivity|]);
      cbn; rewrite <- !app_assoc; split; reflexivity.
  - eexists. split; [reflexivity|]. split; [reflexivity|].
    cbn. rewrite <- !app_assoc. split; reflexivity.
Qed.
End Facts.

(** The search fails once: Qwen's section shows the failure, and GPT's
    chain searches again and answers. *)
Lemma simple_search_failure_shown_as_model_error_witness :
  exists s',
    Simple.answer_question flaky_search_env the_question fresh = (Ok tt, s')
    /\ log s'
       = [search_run the_question;
          search_run the_question;
          chain_invoke gpt_chain
            [(lit "question", the_question);
             (lit "context", lit "Paris is the capital of France.")]]
    /\ nth 6 (stdout s') [] = lit "Qwen3-VL Error: timed out"
    /\ nth 10 (stdout s') [] = lit "The capital is Paris.".
Proof.
  destruct (simple_search_failure_shown_as_model_error flaky_search_env
              the_question fresh (Exception (lit "timed out")) eq_refl)
    as (s' & Hrun & Hlog & _ & Hout).
  exists s'. split; [exact Hrun|]. split; [exact Hlog|].
  rewrite Hout. split; reflexivity.
Defined.

Lemma basic_question_turn_witness :
  exists s',
    Basic.run_line outage_env ascii_isspace ascii_lower
      (lit " capital of France ") fresh = (Ok true, s')
    /\ log s' = [search_run the_question]
    /\ stdout s'
       = [[129302]%N ++ lit " Thinking...";
          [129302]%N ++ lit " Sorry, I encountered an error: no network";
          [129302]%N ++ lit " Please try again."].
Proof.
  assert (Hsome : strip ascii_isspace (lit " capital of France ") <> [])
    by (vm_compute; discriminate).
  destruct (basic_question_turn outage_env ascii_isspace ascii_lower
              (lit " capital of France ") fresh eq_refl Hsome)
    as (s' & Hrun & _ & Hlog & Hout).
  exists s'. split; [exact Hrun|]. split; [exact Hlog | exact Hout].
Defined.

(** The side-by-side script in the Paris world: two searches, two models. *)
Example simple_paris_requests :
  log (snd (Simple.answer_question paris_env the_question fresh))
  = [search_run the_question;
     chain_invoke qwen_chain
       [(lit "question", the_question);
        (lit "context", lit "Paris is the capital of France.")];
     search_run the_question;
     chain_invoke gpt_chain
       [(lit "question", the_question);
        (lit "context", lit "Paris is the capital of France.")]].
Proof. reflexivity. Qed.
End ScriptFacts.
